(** * SmartCut: edit-plan and timeline-document engine

    A shallow embedding of the pure parts of [smartcut.tools.analyze],
    [smartcut.tools.subtitles] and [smartcut.core.capcut_reader], and the
    properties of the specification checked against it.

    Conventions of the embedding.
    - Python [float] timestamps are exact rationals ([Q]); comparisons are
      the exact ones, [+], [-] and [*] are computed without rounding.
    - Python [int] is [Z]; [len] is [length] (a [nat]) and is injected into
      [Z] where the source compares it with an [int] argument.
    - Python [str] is [string]; one [ascii] stands for one character.
    - [dict]s used as maps are [gmap]s, [set]s are [gset]s; JSON objects whose
      keys the code reads are records with one optional field per key, the
      remaining keys are kept verbatim in an association list.
    - [for] loops are [fold_left]s over the iterated list with the loop
      variables as the accumulator. *)

From Stdlib Require Import ZArith QArith Lqa Lia Ascii String.
From stdpp Require Import base option gmap strings list.

Local Open Scope string_scope.
Local Open Scope Z_scope.
Local Open Scope list_scope.

(** ** Python primitives *)

Module Py.

(** [a < b] on floats. *)
Definition Qlt_bool (a b : Q) : bool := negb (Qle_bool b a).

(** [min(a, b)]: the first argument unless the second is smaller. *)
Definition min (a b : Q) : Q := if Qlt_bool b a then b else a.

(** [max(a, b)] on [int]: the first argument unless the second is larger. *)
Definition max (a b : Z) : Z := if a <? b then b else a.

(** [int(x)] on a float: truncation towards zero. *)
Definition int (x : Q) : Z := Z.quot (Qnum x) (Zpos (Qden x)).

(** [sum(xs)] on floats, starting from [0]. *)
Definition sum (xs : list Q) : Q := fold_left Qplus xs 0%Q.

(** [enumerate(xs)]. *)
Definition enumerate {A} (xs : list A) : list (nat * A) :=
  zip (seq 0 (length xs)) xs.

(** [sep.join(xs)]. *)
Definition join (sep : string) (xs : list string) : string :=
  String.concat sep xs.

(** [c.isspace()] for the characters of the embedding (code points below
    256): TAB, LF, VT, FF, CR, FS, GS, RS, US, SPACE, NEL and NBSP. *)
Definition isspace (c : ascii) : bool :=
  let n := N_of_ascii c in
  (((9 <=? n) && (n <=? 13)) || ((28 <=? n) && (n <=? 32))
   || (n =? 133) || (n =? 160))%N.

Fixpoint lstrip (s : string) : string :=
  match s with
  | String c s' => if isspace c then lstrip s' else s
  | EmptyString => EmptyString
  end.

(** [rstrip] drops a character when it is a space and everything after it
    has been dropped. *)
Fixpoint rstrip (s : string) : string :=
  match s with
  | String c s' =>
      match rstrip s' with
      | EmptyString => if isspace c then EmptyString else String c EmptyString
      | r => String c r
      end
  | EmptyString => EmptyString
  end.

(** [s.strip()]. *)
Definition strip (s : string) : string := rstrip (lstrip s).

(** [len(s)] on a string. *)
Definition len (s : string) : Z := Z.of_nat (String.length s).

End Py.

(** ** [smartcut.config] *)

Module Config.
Definition SILENCE_THRESHOLD_SEC : Q := 3.0.
Definition SUBTITLE_MAX_WORDS : Z := 8.
Definition SUBTITLE_MAX_CHARS : Z := 45.
Definition MICROSECONDS_PER_SECOND : Z := 1000000.
End Config.

(** ** [smartcut.core.models] *)

Record TranscriptionWord := {
  w_word : string;
  w_start : Q;
  w_end : Q;
}.

Record TranscriptionSegment := {
  ts_id : Z;
  ts_start : Q;
  ts_end : Q;
  ts_text : string;
  ts_words : list TranscriptionWord;
}.

Record Transcription := {
  t_language : string;
  t_duration : Q;
  t_segments : list TranscriptionSegment;
}.

(** [Transcription.get_all_words]: [words.extend(segment.words)] for every
    segment in order. *)
Definition get_all_words (self : Transcription) : list TranscriptionWord :=
  fold_left (fun words segment => words ++ ts_words segment)
            (t_segments self) [].

(** [Literal["keep", "remove"]]. *)
Inductive Action := keep | remove.

Record Paragraph := {
  p_id : Z;
  p_start : Q;
  p_end : Q;
  p_text : string;
  p_action : Action;
  p_reason : string;
  p_group_id : option Z;
}.

Record CutSegment := {
  cs_start : Q;
  cs_end : Q;
  cs_start_word : string;
  cs_end_word : string;
  cs_reason : option string;
}.

Record CutStats := {
  original_duration : Q;
  kept_duration : Q;
  removed_duration : Q;
  duplicates_removed : Z;
  silences_removed : Z;
}.

Record CutPlan := {
  keep_segments : list CutSegment;
  remove_segments : list CutSegment;
  stats : CutStats;
}.

Record DuplicateGroup := {
  block_ids : list Z;
  g_keep : Z;
  g_remove : list Z;
  g_reason : string;
}.

Record ExistingVideoMaterial := {
  evm_id : string;
  evm_path : string;
  evm_duration : Q;
  evm_width : Z;
  evm_height : Z;
}.

Record ExistingVideoSegment := {
  evs_id : string;
  evs_material_id : string;
  evs_source_path : string;
  evs_timeline_start : Q;
  evs_timeline_end : Q;
  evs_source_start : Q;
  evs_source_end : Q;
  evs_duration : Q;
}.

(** ** [smartcut.tools.analyze] *)

(** The [Paragraph(...)] built when a group of words is closed;
    [current_words] is [first :: _], so [current_words[0]] is [first] and
    [current_words[-1]] is its last element. *)
Definition close_paragraph (paragraph_id : Z) (first : TranscriptionWord)
    (current_words : list TranscriptionWord) : Paragraph :=
  {| p_id := paragraph_id;
     p_start := w_start first;
     p_end := w_end (List.last current_words first);
     p_text := Py.join " " (map w_word current_words);
     p_action := keep;
     p_reason := "";
     p_group_id := None |}.

(** The loop variables of [find_paragraphs]:
    [(paragraphs, current_words, paragraph_id)]. *)
Definition fp_state : Type :=
  list Paragraph * list TranscriptionWord * Z.

(** One iteration of [for i, word in enumerate(all_words)]. *)
Definition find_paragraphs_body (all_words : list TranscriptionWord)
    (silence_threshold : Q) (st : fp_state)
    (iw : nat * TranscriptionWord) : fp_state :=
  let '(paragraphs, current_words, paragraph_id) := st in
  let '(i, word) := iw in
  let current_words := current_words ++ [word] in
  if (i <? length all_words - 1)%nat then
    match all_words !! (i + 1)%nat with
    | Some next_word =>
        let pause_duration := (w_start next_word - w_end word)%Q in
        if Qle_bool silence_threshold pause_duration then
          match current_words with
          | first :: _ =>
              (paragraphs ++ [close_paragraph paragraph_id first current_words],
               [], paragraph_id + 1)
          | [] => (paragraphs, current_words, paragraph_id)
          end
        else (paragraphs, current_words, paragraph_id)
    | None => (paragraphs, current_words, paragraph_id)
    end
  else (paragraphs, current_words, paragraph_id).

Definition find_paragraphs (transcription : Transcription)
    (silence_threshold : Q) : list Paragraph :=
  let all_words := get_all_words transcription in
  match all_words with
  | [] => []
  | _ =>
      let '(paragraphs, current_words, paragraph_id) :=
        fold_left (find_paragraphs_body all_words silence_threshold)
                  (Py.enumerate all_words) ([], [], 0) in
      match current_words with
      | first :: _ =>
          paragraphs ++ [close_paragraph paragraph_id first current_words]
      | [] => paragraphs
      end
  end.

(** The value of [duplicate_result.groups]: the answer of the language-model
    client to [paragraph_data], a list of [(id, text)] pairs.  The client is
    an input of the model. *)
Definition LLMClient : Type := list (Z * string) -> list DuplicateGroup.

(** One iteration of [for group in duplicate_result.groups], on the loop
    variables [(remove_ids, group_map)]. *)
Definition collect_groups_body (st : gset Z * gmap Z DuplicateGroup)
    (group : DuplicateGroup) : gset Z * gmap Z DuplicateGroup :=
  let '(remove_ids, group_map) := st in
  let remove_ids :=
    fold_left (fun s block_id => s ∪ {[block_id]})
              (g_remove group) remove_ids in
  let group_map :=
    fold_left (fun m block_id => <[block_id := group]> m)
              (block_ids group) group_map in
  (remove_ids, group_map).

(** The first loop of [detect_duplicates_in_paragraphs]: fills [remove_ids]
    and [group_map] from the groups, in order. *)
Definition collect_groups (groups : list DuplicateGroup)
    : gset Z * gmap Z DuplicateGroup :=
  fold_left collect_groups_body groups (∅, ∅).

(** What the second loop appends for the paragraph [p]. *)
Definition update_paragraph (remove_ids : gset Z)
    (group_map : gmap Z DuplicateGroup) (p : Paragraph) : Paragraph :=
  if bool_decide (p_id p ∈ remove_ids) then
    let group := group_map !! p_id p in
    let reason :=
      match group with
      | Some g => "duplicate_take: " +:+ g_reason g
      | None => "duplicate_take"
      end in
    {| p_id := p_id p; p_start := p_start p; p_end := p_end p;
       p_text := p_text p; p_action := remove; p_reason := reason;
       p_group_id := match group with
                     | Some g => Some (g_keep g)
                     | None => None
                     end |}
  else if bool_decide (p_id p ∈ dom group_map) then
    {| p_id := p_id p; p_start := p_start p; p_end := p_end p;
       p_text := p_text p; p_action := keep; p_reason := "best_take";
       p_group_id := Some (p_id p) |}
  else p.

Definition detect_duplicates_in_paragraphs (client : LLMClient)
    (paragraphs : list Paragraph) : list Paragraph :=
  match paragraphs with
  | [] => paragraphs
  | _ =>
      let paragraph_data := map (fun p => (p_id p, p_text p)) paragraphs in
      let duplicate_result := client paragraph_data in
      let '(remove_ids, group_map) := collect_groups duplicate_result in
      fold_left
        (fun updated_paragraphs p =>
           updated_paragraphs ++ [update_paragraph remove_ids group_map p])
        paragraphs []
  end.

(** [sorted(xs, key=key)]: the stable ascending sort, by insertion, with the
    comparison [<] on the keys that Python's sort uses. *)
Fixpoint sorted_insert {A} (key : A -> Q) (x : A) (l : list A) : list A :=
  match l with
  | [] => [x]
  | y :: l' =>
      if Py.Qlt_bool (key y) (key x) then y :: sorted_insert key x l'
      else x :: y :: l'
  end.

Definition sorted {A} (key : A -> Q) (l : list A) : list A :=
  foldr (sorted_insert key) [] l.

(** The loop variables of [build_cut_plan]: [(keep_segments,
    remove_segments, prev_end, duplicates_removed, silences_removed)]. *)
Definition bcp_state : Type :=
  list CutSegment * list CutSegment * Q * Z * Z.

(** One iteration of [for p in sorted_paragraphs]. *)
Definition build_cut_plan_body (transcription : Transcription)
    (silence_threshold : Q) (st : bcp_state) (p : Paragraph) : bcp_state :=
  let '(keep_segments, remove_segments, prev_end,
        duplicates_removed, silences_removed) := st in
  let '(remove_segments, silences_removed) :=
    if Qle_bool silence_threshold (p_start p - prev_end)%Q then
      (remove_segments ++
         [{| cs_start := prev_end; cs_end := p_start p;
             cs_start_word := ""; cs_end_word := "";
             cs_reason := Some "long_silence" |}],
       silences_removed + 1)
    else (remove_segments, silences_removed) in
  match p_action p with
  | keep =>
      let all_words := get_all_words transcription in
      let paragraph_words :=
        List.filter
          (fun w => Qle_bool (p_start p) (w_start w)
                    && Qle_bool (w_start w) (p_end p))
          all_words in
      let start_word :=
        match paragraph_words with w :: _ => w_word w | [] => "" end in
      let end_word :=
        match paragraph_words with
        | w :: _ => w_word (List.last paragraph_words w)
        | [] => ""
        end in
      (keep_segments ++
         [{| cs_start := p_start p; cs_end := p_end p;
             cs_start_word := start_word; cs_end_word := end_word;
             cs_reason := None |}],
       remove_segments, p_end p, duplicates_removed, silences_removed)
  | remove =>
      (keep_segments,
       remove_segments ++
         [{| cs_start := p_start p; cs_end := p_end p;
             cs_start_word := ""; cs_end_word := "";
             cs_reason := Some (p_reason p) |}],
       p_end p, duplicates_removed + 1, silences_removed)
  end.

(** [s.end - s.start]. *)
Definition span (s : CutSegment) : Q := (cs_end s - cs_start s)%Q.

Definition build_cut_plan (paragraphs : list Paragraph)
    (transcription : Transcription) (silence_threshold : Q) : CutPlan :=
  let sorted_paragraphs := sorted p_start paragraphs in
  let '(keep_segments, remove_segments, prev_end,
        duplicates_removed, silences_removed) :=
    fold_left (build_cut_plan_body transcription silence_threshold)
              sorted_paragraphs ([], [], 0%Q, 0, 0) in
  let kept_duration := Py.sum (map span keep_segments) in
  let removed_duration := Py.sum (map span remove_segments) in
  let stats :=
    {| original_duration := t_duration transcription;
       kept_duration := kept_duration;
       removed_duration := removed_duration;
       duplicates_removed := duplicates_removed;
       silences_removed := silences_removed |} in
  {| keep_segments := keep_segments;
     remove_segments := remove_segments;
     stats := stats |}.

(** ** [smartcut.tools.subtitles] *)

(** The dictionaries [{"word", "start", "end"}] of the remapped words. *)
Record TimelineWord := {
  tw_word : string;
  tw_start : Q;
  tw_end : Q;
}.

(** The dictionaries [{"start", "end", "text"}] of the caption lines. *)
Record Line := {
  l_start : Q;
  l_end : Q;
  l_text : string;
}.

(** The inner loop of [map_words_to_timeline]: one word of the segment. *)
Definition remap_word (segment : CutSegment) (timeline_offset : Q)
    (word : TranscriptionWord) : TimelineWord :=
  let relative_start := (w_start word - cs_start segment)%Q in
  let relative_end := (w_end word - cs_start segment)%Q in
  let relative_end :=
    Py.min relative_end (cs_end segment - cs_start segment)%Q in
  {| tw_word := w_word word;
     tw_start := (timeline_offset + relative_start)%Q;
     tw_end := (timeline_offset + relative_end)%Q |}.

(** One iteration of [for segment in keep_segments], on the loop variables
    [(timeline_words, timeline_offset)]. *)
Definition map_words_body (words : list TranscriptionWord)
    (st : list TimelineWord * Q) (segment : CutSegment)
    : list TimelineWord * Q :=
  let '(timeline_words, timeline_offset) := st in
  let segment_words :=
    List.filter
      (fun w => Qle_bool (cs_start segment) (w_start w)
                && Py.Qlt_bool (w_start w) (cs_end segment))
      words in
  let timeline_words :=
    fold_left
      (fun timeline_words word =>
         timeline_words ++ [remap_word segment timeline_offset word])
      segment_words timeline_words in
  (timeline_words, (timeline_offset + (cs_end segment - cs_start segment))%Q).

Definition map_words_to_timeline (words : list TranscriptionWord)
    (keep_segments : list CutSegment) : list TimelineWord :=
  fst (fold_left (map_words_body words) keep_segments ([], 0%Q)).

(** The loop variables of [group_words_into_lines]:
    [(lines, current_line_words, current_line_text)]. *)
Definition gw_state : Type := list Line * list TimelineWord * string.

(** One iteration of [for word in words]. *)
Definition group_words_body (max_words max_chars : Z) (st : gw_state)
    (word : TimelineWord) : gw_state :=
  let '(lines, current_line_words, current_line_text) := st in
  let word_text := Py.strip (tw_word word) in
  let test_text := Py.strip (current_line_text +:+ " " +:+ word_text) in
  let '(lines, current_line_words, current_line_text) :=
    match current_line_words with
    | first :: _ =>
        if (Z.of_nat (length current_line_words) >=? max_words)
           || (Py.len test_text >? max_chars)
        then
          (lines ++
             [{| l_start := tw_start first;
                 l_end := tw_end (List.last current_line_words first);
                 l_text := current_line_text |}],
           [], "")
        else (lines, current_line_words, current_line_text)
    | [] => (lines, current_line_words, current_line_text)
    end in
  (lines, current_line_words ++ [word],
   Py.strip (current_line_text +:+ " " +:+ word_text)).

Definition group_words_into_lines (words : list TimelineWord)
    (max_words max_chars : Z) : list Line :=
  match words with
  | [] => []
  | _ =>
      let '(lines, current_line_words, current_line_text) :=
        fold_left (group_words_body max_words max_chars) words ([], [], "") in
      match current_line_words with
      | first :: _ =>
          lines ++
            [{| l_start := tw_start first;
                l_end := tw_end (List.last current_line_words first);
                l_text := current_line_text |}]
      | [] => lines
      end
  end.

(** ** [smartcut.core.capcut_reader] *)

(** JSON values, for the parts of a document the code copies and never
    inspects. *)
#[local] Unset Elimination Schemes.
Inductive json : Type :=
| JNull
| JBool (b : bool)
| JInt (n : Z)
| JFloat (x : Q)
| JStr (s : string)
| JList (xs : list json)
| JDict (kvs : list (string * json)).
#[local] Set Elimination Schemes.

(** A JSON object seen through the keys the code reads: a key that is
    absent is [None], the other keys are in the [_other] field.  Documents
    follow the draft schema: a key that is present holds a value of the kind
    the code expects. *)

(** [{"start": ..., "duration": ...}], in microseconds. *)
Record TimeRange := {
  tr_start : option Z;
  tr_duration : option Z;
  tr_other : list (string * json);
}.

Record Segment := {
  seg_id : option string;
  seg_material_id : option string;
  seg_target_timerange : option TimeRange;
  seg_source_timerange : option TimeRange;
  seg_other : list (string * json);
}.

Record Track := {
  track_type : option string;
  track_segments : option (list Segment);
  track_other : list (string * json);
}.

Record VideoMaterial := {
  vm_id : option string;
  vm_path : option string;
  vm_duration : option Z;
  vm_width : option Z;
  vm_height : option Z;
  vm_other : list (string * json);
}.

Record Materials := {
  mats_videos : option (list VideoMaterial);
  mats_other : list (string * json);
}.

(** [draft_info.json]. *)
Record Content := {
  c_id : option string;
  c_name : option string;
  c_duration : option Z;
  c_update_time : option Z;
  c_tracks : option (list Track);
  c_materials : option Materials;
  c_other : list (string * json);
}.

(** [draft_meta_info.json]. *)
Record Meta := {
  m_draft_id : option string;
  m_draft_name : option string;
  m_draft_root_path : option string;
  m_tm_duration : option Z;
  m_tm_draft_modified : option Z;
  m_other : list (string * json);
}.

(** The empty objects [{}]. *)
Definition empty_timerange : TimeRange :=
  {| tr_start := None; tr_duration := None; tr_other := [] |}.
Definition empty_segment : Segment :=
  {| seg_id := None; seg_material_id := None; seg_target_timerange := None;
     seg_source_timerange := None; seg_other := [] |}.
Definition empty_materials : Materials :=
  {| mats_videos := None; mats_other := [] |}.
Definition empty_content : Content :=
  {| c_id := None; c_name := None; c_duration := None; c_update_time := None;
     c_tracks := None; c_materials := None; c_other := [] |}.
Definition empty_meta : Meta :=
  {| m_draft_id := None; m_draft_name := None; m_draft_root_path := None;
     m_tm_duration := None; m_tm_draft_modified := None; m_other := [] |}.

(** Truth value of a segment object: false exactly for [{}]. *)
Definition segment_truthy (s : Segment) : bool :=
  match s with
  | {| seg_id := None; seg_material_id := None;
       seg_target_timerange := None; seg_source_timerange := None;
       seg_other := [] |} => false
  | _ => true
  end.

(** A [pathlib.Path] with a parent directory and a final component. *)
Record Path := {
  path_parent : string;
  path_name : string;
}.

(** [str(path)]. *)
Definition path_str (p : Path) : string :=
  path_parent p +:+ "/" +:+ path_name p.

(** [path.parent / name]. *)
Definition sibling (p : Path) (name : string) : Path :=
  {| path_parent := path_parent p; path_name := name |}.

(** An instance of [CapCutProject]. *)
Record CapCutProject := {
  project_path : Path;
  _content : Content;
  _meta : Meta;
}.

(** [us / MICROSECONDS_PER_SECOND]: true division of an [int]. *)
Definition seconds (us : Z) : Q :=
  (inject_Z us / inject_Z Config.MICROSECONDS_PER_SECOND)%Q.

(** [self._content.get("tracks", [])]. *)
Definition tracks_of (c : Content) : list Track := default [] (c_tracks c).

(** [track.get("segments", [])]. *)
Definition segments_of (t : Track) : list Segment :=
  default [] (track_segments t).

(** [self._content.get("materials", {}).get("videos", [])]. *)
Definition videos_of (c : Content) : list VideoMaterial :=
  default [] (mats_videos (default empty_materials (c_materials c))).

Definition get_video_materials (self : CapCutProject)
    : list ExistingVideoMaterial :=
  fold_left
    (fun materials mat =>
       materials ++
         [{| evm_id := default "" (vm_id mat);
             evm_path := default "" (vm_path mat);
             evm_duration := seconds (default 0 (vm_duration mat));
             evm_width := default 0 (vm_width mat);
             evm_height := default 0 (vm_height mat) |}])
    (videos_of (_content self)) [].

(** [{m.id: m for m in materials}]: a later material replaces an earlier one
    with the same id. *)
Definition materials_by_id (materials : list ExistingVideoMaterial)
    : gmap string ExistingVideoMaterial :=
  fold_left (fun d m => <[evm_id m := m]> d) materials ∅.

(** The entry built for one segment of a video track. *)
Definition video_segment_entry
    (materials_map : gmap string ExistingVideoMaterial) (seg : Segment)
    : ExistingVideoSegment :=
  let material_id := default "" (seg_material_id seg) in
  let material := materials_map !! material_id in
  let source_path :=
    match material with Some m => evm_path m | None => "" end in
  let target := default empty_timerange (seg_target_timerange seg) in
  let source := default empty_timerange (seg_source_timerange seg) in
  let timeline_start := seconds (default 0 (tr_start target)) in
  let duration := seconds (default 0 (tr_duration target)) in
  {| evs_id := default "" (seg_id seg);
     evs_material_id := material_id;
     evs_source_path := source_path;
     evs_timeline_start := timeline_start;
     evs_timeline_end := (timeline_start + duration)%Q;
     evs_source_start := seconds (default 0 (tr_start source));
     evs_source_end :=
       seconds (default 0 (tr_start source)
                + default 0 (tr_duration source));
     evs_duration := duration |}.

Definition get_video_segments (self : CapCutProject)
    : list ExistingVideoSegment :=
  let materials_map := materials_by_id (get_video_materials self) in
  fold_left
    (fun segments track =>
       if bool_decide (track_type track = Some "video") then
         fold_left
           (fun segments seg =>
              segments ++ [video_segment_entry materials_map seg])
           (segments_of track) segments
       else segments)
    (tracks_of (_content self)) [].

(** [generate_uuid()]: the [n]-th call returns [uuid4 n]; the generator
    [uuid4] is an input of the model and the number of calls made so far is
    threaded through the functions that call it. *)
Definition UuidSource : Type := nat -> string.

(** [_find_video_track]: the first track of type ["video"], with its
    position in the track list, which stands for the reference the method
    returns. *)
Fixpoint find_video_track_from (i : nat) (tracks : list Track)
    : option (nat * Track) :=
  match tracks with
  | [] => None
  | track :: rest =>
      if bool_decide (track_type track = Some "video") then Some (i, track)
      else find_video_track_from (S i) rest
  end.

Definition _find_video_track (self : CapCutProject) : option (nat * Track) :=
  find_video_track_from 0 (tracks_of (_content self)).

(** [_find_material_id_for_path]: the result of [mat.get("id")] for the
    first material whose path is [video_path]; [None] also when that
    material has no id. *)
Fixpoint find_material_id_in (video_path_str : string)
    (videos : list VideoMaterial) : option string :=
  match videos with
  | [] => None
  | mat :: rest =>
      if bool_decide (vm_path mat = Some video_path_str) then vm_id mat
      else find_material_id_in video_path_str rest
  end.

Definition _find_material_id_for_path (self : CapCutProject)
    (video_path : string) : option string :=
  find_material_id_in video_path (videos_of (_content self)).

(** The minimal defaults of [_build_video_segment]. *)
Definition default_segment_fields : list (string * json) :=
  [("clip",
    JDict [("alpha", JFloat 1.0);
           ("flip", JDict [("horizontal", JBool false);
                           ("vertical", JBool false)]);
           ("rotation", JFloat 0.0);
           ("scale", JDict [("x", JFloat 1.0); ("y", JFloat 1.0)]);
           ("transform", JDict [("x", JFloat 0.0); ("y", JFloat 0.0)])]);
   ("speed", JFloat 1.0);
   ("render_index", JInt 0)].

Definition _build_video_segment (uuid : string) (material_id : string)
    (timeline_start_us source_start_us duration_us : Z)
    (template : Segment) : Segment :=
  let segment :=
    if segment_truthy template then template
    else {| seg_id := None; seg_material_id := None;
            seg_target_timerange := None; seg_source_timerange := None;
            seg_other := default_segment_fields |} in
  {| seg_id := Some uuid;
     seg_material_id := Some material_id;
     seg_target_timerange :=
       Some {| tr_start := Some timeline_start_us;
               tr_duration := Some duration_us; tr_other := [] |};
     seg_source_timerange :=
       Some {| tr_start := Some source_start_us;
               tr_duration := Some duration_us; tr_other := [] |};
     seg_other := seg_other segment |}.

(** The end of a segment on the timeline, as [_update_duration] reads it. *)
Definition segment_end (seg : Segment) : Z :=
  let target := default empty_timerange (seg_target_timerange seg) in
  default 0 (tr_start target) + default 0 (tr_duration target).

(** The value of [max_end] after the loops of [_update_duration]. *)
Definition max_segment_end (tracks : list Track) : Z :=
  fold_left
    (fun max_end track =>
       fold_left (fun max_end seg => Py.max max_end (segment_end seg))
                 (segments_of track) max_end)
    tracks 0.

Definition set_duration (c : Content) (d : Z) : Content :=
  {| c_id := c_id c; c_name := c_name c; c_duration := Some d;
     c_update_time := c_update_time c; c_tracks := c_tracks c;
     c_materials := c_materials c; c_other := c_other c |}.

Definition set_tm_duration (m : Meta) (d : Z) : Meta :=
  {| m_draft_id := m_draft_id m; m_draft_name := m_draft_name m;
     m_draft_root_path := m_draft_root_path m; m_tm_duration := Some d;
     m_tm_draft_modified := m_tm_draft_modified m; m_other := m_other m |}.

Definition _update_duration (self : CapCutProject) : CapCutProject :=
  let max_end := max_segment_end (tracks_of (_content self)) in
  {| project_path := project_path self;
     _content := set_duration (_content self) max_end;
     _meta := set_tm_duration (_meta self) max_end |}.

(** [video_track["segments"] = new_segments], where [video_track] is the
    track at position [i] of the content document. *)
Definition set_track_segments (c : Content) (i : nat)
    (new_segments : list Segment) : Content :=
  {| c_id := c_id c; c_name := c_name c; c_duration := c_duration c;
     c_update_time := c_update_time c;
     c_tracks :=
       Some (alter
               (fun track =>
                  {| track_type := track_type track;
                     track_segments := Some new_segments;
                     track_other := track_other track |})
               i (tracks_of c));
     c_materials := c_materials c; c_other := c_other c |}.

(** An entry of [cut_plan["keep_segments"]]; the code reads [seg["start"]]
    and [seg["end"]]. *)
Record KeepSegment := {
  ks_start : Q;
  ks_end : Q;
}.

(** The [cut_plan] dictionary: [None] when it has no ["keep_segments"]
    key. *)
Definition CutPlanDict : Type := option (list KeepSegment).

(** [int(x * MICROSECONDS_PER_SECOND)]. *)
Definition to_us (x : Q) : Z :=
  Py.int (x * inject_Z Config.MICROSECONDS_PER_SECOND)%Q.

(** One iteration of [for seg in keep_segments], on the loop variables
    [(new_segments, timeline_offset_us)] and the number [n] of identifiers
    generated so far. *)
Definition apply_cut_plan_body (uuid4 : UuidSource) (material_id : string)
    (template_segment : Segment) (st : list Segment * Z * nat)
    (seg : KeepSegment) : list Segment * Z * nat :=
  let '(new_segments, timeline_offset_us, n) := st in
  let source_start_us := to_us (ks_start seg) in
  let source_end_us := to_us (ks_end seg) in
  let duration_us := source_end_us - source_start_us in
  let new_segment :=
    _build_video_segment (uuid4 n) material_id timeline_offset_us
                         source_start_us duration_us template_segment in
  (new_segments ++ [new_segment], timeline_offset_us + duration_us, S n).

(** [apply_cut_plan]: the project after the call and the number of
    identifiers generated so far. *)
Definition apply_cut_plan (uuid4 : UuidSource) (n : nat)
    (self : CapCutProject) (cut_plan : CutPlanDict) (video_path : string)
    : CapCutProject * nat :=
  let keep_segments := default [] cut_plan in
  match keep_segments with
  | [] => (self, n)
  | _ =>
      match _find_video_track self with
      | None => (self, n)
      | Some (i, video_track) =>
          match _find_material_id_for_path self video_path with
          | None => (self, n)
          | Some material_id =>
              let existing_segments := segments_of video_track in
              let template_segment :=
                match existing_segments with
                | s :: _ => s
                | [] => empty_segment
                end in
              let '(new_segments, timeline_offset_us, n) :=
                fold_left
                  (apply_cut_plan_body uuid4 material_id template_segment)
                  keep_segments ([], 0, n) in
              let self :=
                {| project_path := project_path self;
                   _content := set_track_segments (_content self) i
                                                  new_segments;
                   _meta := _meta self |} in
              (_update_duration self, n)
          end
      end
  end.

(** *** The project directories on disk *)

(** A project directory: its two documents as [json.load] reads them
    ([None] when the file is missing) and its other entries, name and
    contents. *)
Record ProjectDir := {
  draft_info : option Content;
  draft_meta_info : option Meta;
  dir_other : list (string * string);
}.

#[global] Instance Path_eq_dec : EqDecision Path.
Proof. solve_decision. Defined.

#[global] Instance Path_countable : Countable Path.
Proof.
  refine (inj_countable' (fun p => (path_parent p, path_name p))
            (fun q => {| path_parent := fst q; path_name := snd q |}) _).
  intros []; reflexivity.
Defined.

(** The file system: the directories that exist, by path. *)
Abbreviation FS := (gmap Path ProjectDir).

(** [shutil.copytree(src, dst)]: fails ([None]) when [src] is missing or
    [dst] exists, otherwise [dst] becomes a copy of [src]. *)
Definition copytree (src dst : Path) (fs : FS) : option FS :=
  match fs !! src, fs !! dst with
  | Some d, None => Some (<[dst := d]> fs)
  | _, _ => None
  end.

(** [CapCutProject(project_path)]: [__init__] and [_load]; [None] is the
    [FileNotFoundError] raised when [draft_info.json] does not exist. *)
Definition CapCutProject_init (fs : FS) (project_path : Path)
    : option CapCutProject :=
  match fs !! project_path with
  | Some d =>
      match draft_info d with
      | Some content =>
          Some {| project_path := project_path;
                  _content := content;
                  _meta := default empty_meta (draft_meta_info d) |}
      | None => None
      end
  | None => None
  end.

(** The setter of the [project_name] property. *)
Definition set_project_name (self : CapCutProject) (value : string)
    : CapCutProject :=
  let c := _content self in
  let m := _meta self in
  {| project_path := project_path self;
     _content :=
       {| c_id := c_id c; c_name := Some value; c_duration := c_duration c;
          c_update_time := c_update_time c; c_tracks := c_tracks c;
          c_materials := c_materials c; c_other := c_other c |};
     _meta :=
       {| m_draft_id := m_draft_id m; m_draft_name := Some value;
          m_draft_root_path := m_draft_root_path m;
          m_tm_duration := m_tm_duration m;
          m_tm_draft_modified := m_tm_draft_modified m;
          m_other := m_other m |} |}.

(** [save]: stamps both documents with [current_time], the value of
    [int(time.time())], and writes them to the project directory; the
    directory is written only if it exists ([open] does not create it). *)
Definition save (current_time : Z) (self : CapCutProject) (fs : FS)
    : CapCutProject * FS :=
  let c := _content self in
  let m := _meta self in
  let content :=
    {| c_id := c_id c; c_name := c_name c; c_duration := c_duration c;
       c_update_time := Some current_time; c_tracks := c_tracks c;
       c_materials := c_materials c; c_other := c_other c |} in
  let meta :=
    {| m_draft_id := m_draft_id m; m_draft_name := m_draft_name m;
       m_draft_root_path := m_draft_root_path m;
       m_tm_duration := m_tm_duration m;
       m_tm_draft_modified := Some current_time;
       m_other := m_other m |} in
  ({| project_path := project_path self; _content := content;
      _meta := meta |},
   alter (fun d => {| draft_info := Some content;
                      draft_meta_info := Some meta;
                      dir_other := dir_other d |})
         (project_path self) fs).

(** [create_copy]: the source object after the call, the returned copy
    ([None] when [copytree] or the load of the copy raises), the file system
    after the call and the number of identifiers generated so far. *)
Definition create_copy (uuid4 : UuidSource) (n : nat) (current_time : Z)
    (self : CapCutProject) (new_name : string) (fs : FS)
    : CapCutProject * option CapCutProject * FS * nat :=
  let new_id := uuid4 n in
  let new_path := sibling (project_path self) new_id in
  match copytree (project_path self) new_path fs with
  | None => (self, None, fs, S n)
  | Some fs =>
      match CapCutProject_init fs new_path with
      | None => (self, None, fs, S n)
      | Some copy_project =>
          let c := _content copy_project in
          let m := _meta copy_project in
          let copy_project :=
            {| project_path := project_path copy_project;
               _content :=
                 {| c_id := Some new_id; c_name := c_name c;
                    c_duration := c_duration c;
                    c_update_time := c_update_time c;
                    c_tracks := c_tracks c; c_materials := c_materials c;
                    c_other := c_other c |};
               _meta :=
                 {| m_draft_id := Some new_id;
                    m_draft_name := m_draft_name m;
                    m_draft_root_path := Some (path_str new_path);
                    m_tm_duration := m_tm_duration m;
                    m_tm_draft_modified := m_tm_draft_modified m;
                    m_other := m_other m |} |} in
          let copy_project := set_project_name copy_project new_name in
          let '(copy_project, fs) := save current_time copy_project fs in
          (self, Some copy_project, fs, S n)
      end
  end.

(** * Specification-level definitions

    The definitions below are not translations of the source: they name the
    notions the properties are stated with, and the closed forms of the
    loops used in the proofs. *)

(** ** Transcript segmenter *)

(** The loop of [find_paragraphs] as a recursion on the remaining words,
    looking ahead at the next one. *)
Fixpoint fp_loop (silence_threshold : Q) (words : list TranscriptionWord)
    (st : fp_state) : fp_state :=
  match words with
  | [] => st
  | word :: rest =>
      let '(paragraphs, current_words, paragraph_id) := st in
      let current_words := current_words ++ [word] in
      match rest with
      | next_word :: _ =>
          if Qle_bool silence_threshold (w_start next_word - w_end word)%Q
          then
            match current_words with
            | first :: _ =>
                fp_loop silence_threshold rest
                  (paragraphs ++
                     [close_paragraph paragraph_id first current_words],
                   [], paragraph_id + 1)
            | [] =>
                fp_loop silence_threshold rest
                  (paragraphs, current_words, paragraph_id)
            end
          else
            fp_loop silence_threshold rest
              (paragraphs, current_words, paragraph_id)
      | [] => (paragraphs, current_words, paragraph_id)
      end
  end.

(** The final flush of [find_paragraphs]. *)
Definition fp_flush (st : fp_state) : list Paragraph :=
  let '(paragraphs, current_words, paragraph_id) := st in
  match current_words with
  | first :: _ =>
      paragraphs ++ [close_paragraph paragraph_id first current_words]
  | [] => paragraphs
  end.

(** The groups of consecutive words separated by the pauses of at least
    [silence_threshold]; [pending] is the open group. *)
Fixpoint split_at_pauses (silence_threshold : Q)
    (pending words : list TranscriptionWord)
    : list (list TranscriptionWord) :=
  match words with
  | [] => match pending with [] => [] | _ => [pending] end
  | word :: rest =>
      match rest with
      | next_word :: _ =>
          if Qle_bool silence_threshold (w_start next_word - w_end word)%Q
          then (pending ++ [word])
                 :: split_at_pauses silence_threshold [] rest
          else split_at_pauses silence_threshold (pending ++ [word]) rest
      | [] => [pending ++ [word]]
      end
  end.

(** The paragraphs of a list of groups, numbered from [paragraph_id]. *)
Fixpoint paragraphs_from (paragraph_id : Z)
    (groups : list (list TranscriptionWord)) : list Paragraph :=
  match groups with
  | [] => []
  | g :: groups =>
      match g with
      | first :: _ =>
          close_paragraph paragraph_id first g
            :: paragraphs_from (paragraph_id + 1) groups
      | [] => paragraphs_from paragraph_id groups
      end
  end.


(** Every two adjacent elements of a list are related. *)
Inductive adjacent {A} (R : A -> A -> Prop) : list A -> Prop :=
| adjacent_nil : adjacent R []
| adjacent_one x : adjacent R [x]
| adjacent_cons x y l : R x y -> adjacent R (y :: l) -> adjacent R (x :: y :: l).

(** ** Cut-plan builder *)





(** The sum of [end - start] over a list of segments. *)
Definition total_span (segments : list CutSegment) : Q :=
  foldr (fun s acc => (span s + acc)%Q) 0%Q segments.

(** The keep segment that [build_cut_plan] emits for a kept paragraph. *)
Definition keep_segment_of (transcription : Transcription) (p : Paragraph)
    : CutSegment :=
  let paragraph_words :=
    List.filter
      (fun w => Qle_bool (p_start p) (w_start w)
                && Qle_bool (w_start w) (p_end p))
      (get_all_words transcription) in
  {| cs_start := p_start p; cs_end := p_end p;
     cs_start_word :=
       match paragraph_words with w :: _ => w_word w | [] => "" end;
     cs_end_word :=
       match paragraph_words with
       | w :: _ => w_word (List.last paragraph_words w)
       | [] => ""
       end;
     cs_reason := None |}.

(** [p.action == "keep"]. *)
Definition is_keep (p : Paragraph) : bool :=
  match p_action p with keep => true | remove => false end.

(** The words and the transcription of the example of the specification:
    [("hi", 0, 0.5)], [("there", 0.6, 1.0)], [("world", 5.0, 5.4)]. *)
Definition example_words : list TranscriptionWord :=
  [ {| w_word := "hi"; w_start := 0; w_end := 0.5 |};
    {| w_word := "there"; w_start := 0.6; w_end := 1.0 |};
    {| w_word := "world"; w_start := 5.0; w_end := 5.4 |} ].

Definition example_transcription : Transcription :=
  {| t_language := "en"; t_duration := 5.4;
     t_segments :=
       [ {| ts_id := 0; ts_start := 0; ts_end := 5.4;
            ts_text := "hi there world"; ts_words := example_words |} ] |}.

(** Two kept paragraphs that overlap in time. *)
Definition overlapping_paragraphs : list Paragraph :=
  [ {| p_id := 0; p_start := 0; p_end := 10; p_text := "a";
       p_action := keep; p_reason := ""; p_group_id := None |};
    {| p_id := 1; p_start := 5; p_end := 15; p_text := "b";
       p_action := keep; p_reason := ""; p_group_id := None |} ].

(** The key of [x] is at most the key of [y]. *)
Definition key_le {A} (key : A -> Q) (x y : A) : Prop := (key x <= key y)%Q.

(** [R] relates every element of a list to every later one. *)
Fixpoint all_pairs {A} (R : A -> A -> Prop) (l : list A) : Prop :=
  match l with
  | [] => True
  | x :: l' => Forall (R x) l' /\ all_pairs R l'
  end.

(** The [keep_segments] variable of a state of the loop of
    [build_cut_plan]. *)
Definition bcp_keep (st : bcp_state) : list CutSegment :=
  let '(keep_segments, _, _, _, _) := st in keep_segments.

(** ** Timeline remapper *)

(** The words are in time order and do not overlap: each word starts no
    later than it ends, and ends no later than the next one starts. *)
Definition words_sequential (words : list TranscriptionWord) : Prop :=
  Forall (fun w => (w_start w <= w_end w)%Q) words /\
  adjacent (fun a b => (w_end a <= w_start b)%Q) words.

(** Every segment starts no later than it ends. *)
Definition segments_well_formed (segments : list CutSegment) : Prop :=
  Forall (fun s => (cs_start s <= cs_end s)%Q) segments.


(** The words selected for a keep segment. *)
Definition segment_words (words : list TranscriptionWord)
    (segment : CutSegment) : list TranscriptionWord :=
  List.filter
    (fun w => Qle_bool (cs_start segment) (w_start w)
              && Py.Qlt_bool (w_start w) (cs_end segment))
    words.

(** The remapped words of the segments, from the offset [timeline_offset]. *)
Fixpoint remap_from (words : list TranscriptionWord) (timeline_offset : Q)
    (segments : list CutSegment) : list TimelineWord :=
  match segments with
  | [] => []
  | segment :: rest =>
      map (remap_word segment timeline_offset) (segment_words words segment)
        ++ remap_from words (timeline_offset + span segment)%Q rest
  end.




(** The keep segments of the cut plan of the example. *)
Definition example_keep_segments : list CutSegment :=
  keep_segments
    (build_cut_plan (find_paragraphs example_transcription 3.0)
                    example_transcription 3.0).

(** ** Duplicate resolver *)

(** The id is in the [remove] list of some group. *)
Definition in_remove_list (groups : list DuplicateGroup) (id : Z) : Prop :=
  exists g, g ∈ groups /\ id ∈ g_remove g.

(** The id is in the [block_ids] of some group. *)
Definition group_member (groups : list DuplicateGroup) (id : Z) : Prop :=
  exists g, g ∈ groups /\ id ∈ block_ids g.

(** The last group, in the order of the answer, whose [block_ids] list the
    id. *)
Definition owning_group (groups : list DuplicateGroup) (id : Z)
    : option DuplicateGroup :=
  last (filter (fun g => id ∈ block_ids g) groups).

(** A paragraph and two answers of the language model: a group that removes
    an id outside its [block_ids], and two groups that share an id. *)
Definition lone_paragraph : Paragraph :=
  {| p_id := 0; p_start := 0; p_end := 1; p_text := "take";
     p_action := keep; p_reason := ""; p_group_id := None |}.

Definition foreign_remove_groups : list DuplicateGroup :=
  [ {| block_ids := [1; 2]; g_keep := 2; g_remove := [0];
       g_reason := "retry" |} ].

Definition shared_id_groups : list DuplicateGroup :=
  [ {| block_ids := [0; 1]; g_keep := 1; g_remove := [0];
       g_reason := "first" |};
    {| block_ids := [0; 2]; g_keep := 2; g_remove := [];
       g_reason := "second" |} ].

(** ** Caption line grouper *)

(** The text of a line made of the words [g]: each word is stripped and
    appended after a space, and the result is stripped. *)
Definition line_text (g : list TimelineWord) : string :=
  fold_left
    (fun text word => Py.strip (text +:+ " " +:+ Py.strip (tw_word word)))
    g "".

(** The final flush of [group_words_into_lines]. *)
Definition gw_flush (st : gw_state) : list Line :=
  let '(lines, current_line_words, current_line_text) := st in
  match current_line_words with
  | first :: _ =>
      lines ++
        [{| l_start := tw_start first;
            l_end := tw_end (List.last current_line_words first);
            l_text := current_line_text |}]
  | [] => lines
  end.

(** The groups of words of the caption lines; [pending] is the open
    group. *)
Fixpoint line_groups (max_words max_chars : Z)
    (pending words : list TimelineWord) : list (list TimelineWord) :=
  match words with
  | [] => match pending with [] => [] | _ => [pending] end
  | word :: rest =>
      match pending with
      | _ :: _ =>
          if (Z.of_nat (length pending) >=? max_words)
             || (Py.len (line_text (pending ++ [word])) >? max_chars)
          then pending :: line_groups max_words max_chars [word] rest
          else line_groups max_words max_chars (pending ++ [word]) rest
      | [] => line_groups max_words max_chars [word] rest
      end
  end.

(** The lines of a list of groups. *)
Fixpoint lines_from (groups : list (list TimelineWord)) : list Line :=
  match groups with
  | [] => []
  | g :: groups =>
      match g with
      | first :: _ =>
          {| l_start := tw_start first;
             l_end := tw_end (List.last g first);
             l_text := line_text g |} :: lines_from groups
      | [] => lines_from groups
      end
  end.

(** A word longer than five characters, followed by a short one. *)
Definition long_word : TimelineWord :=
  {| tw_word := "supercalifragilistic"; tw_start := 0; tw_end := 1 |}.

Definition short_word : TimelineWord :=
  {| tw_word := "b"; tw_start := 1; tw_end := 2 |}.

(** ** Draft documents *)

(** The track has the type ["video"]. *)
Definition is_video (track : Track) : Prop := track_type track = Some "video".

#[global] Instance is_video_dec (track : Track) : Decision (is_video track).
Proof. unfold is_video. apply _. Defined.

(** The segments of all the video tracks of a list of tracks, in order. *)
Definition video_segments_of (tracks : list Track) : list Segment :=
  concat (map segments_of (filter is_video tracks)).

(** The id under which a video material is known: [mat.get("id", "")]. *)
Definition material_key (mat : VideoMaterial) : string :=
  default "" (vm_id mat).

(** A project whose only video segment refers to a material that the
    document does not have. *)
Definition dangling_project : CapCutProject :=
  {| project_path := {| path_parent := "/drafts"; path_name := "P" |};
     _content :=
       {| c_id := Some "P"; c_name := Some "demo"; c_duration := Some 2000000;
          c_update_time := None;
          c_tracks :=
            Some [ {| track_type := Some "video";
                      track_segments :=
                        Some [ {| seg_id := Some "S0";
                                  seg_material_id := Some "GONE";
                                  seg_target_timerange :=
                                    Some {| tr_start := Some 0;
                                            tr_duration := Some 2000000;
                                            tr_other := [] |};
                                  seg_source_timerange := None;
                                  seg_other := [] |} ];
                      track_other := [] |} ];
          c_materials :=
            Some {| mats_videos :=
                      Some [ {| vm_id := Some "M1";
                                vm_path := Some "/media/a.mp4";
                                vm_duration := Some 2000000;
                                vm_width := Some 1080;
                                vm_height := Some 1920;
                                vm_other := [] |} ];
                    mats_other := [] |};
          c_other := [] |};
     _meta := empty_meta |}.

(** ** Applying a cut plan *)

(** The first video material whose path is [video_path]. *)
Definition matching_material (c : Content) (video_path : string)
    : option VideoMaterial :=
  head (filter (fun mat => vm_path mat = Some video_path) (videos_of c)).

(** The end of the project: the largest end of a segment of any track, and
    at least [0]. *)
Definition project_end (tracks : list Track) : Z :=
  foldr Z.max 0 (map segment_end (concat (map segments_of tracks))).

(** The duration in microseconds of the segment built for a keep
    segment. *)
Definition duration_us (seg : KeepSegment) : Z :=
  to_us (ks_end seg) - to_us (ks_start seg).

(** The sum of the durations of the first [k] keep segments. *)
Definition offset_before (keep_segments : list KeepSegment) (k : nat) : Z :=
  foldr Z.add 0 (map duration_us (take k keep_segments)).

(** The fields that the new segments share: those of the first segment of
    the track, or the defaults when the track has no segment or its first
    segment is the empty object. *)
Definition template_fields (track : Track) : list (string * json) :=
  match segments_of track with
  | s :: _ => if segment_truthy s then seg_other s else default_segment_fields
  | [] => default_segment_fields
  end.

(** The segment built for the [k]-th keep segment. *)
Definition new_segment (uuid4 : UuidSource) (n : nat) (material_id : string)
    (track : Track) (keep_segments : list KeepSegment) (k : nat)
    (seg : KeepSegment) : Segment :=
  {| seg_id := Some (uuid4 (n + k)%nat);
     seg_material_id := Some material_id;
     seg_target_timerange :=
       Some {| tr_start := Some (offset_before keep_segments k);
               tr_duration := Some (duration_us seg); tr_other := [] |};
     seg_source_timerange :=
       Some {| tr_start := Some (to_us (ks_start seg));
               tr_duration := Some (duration_us seg); tr_other := [] |};
     seg_other := template_fields track |}.

(** The track with its segment list replaced. *)
Definition with_segments (track : Track) (segments : list Segment) : Track :=
  {| track_type := track_type track; track_segments := Some segments;
     track_other := track_other track |}.


(** A project with a text track and a video track, the material of its
    video, a source of identifiers and the keep segments of the example. *)
Definition demo_video_segment : Segment :=
  {| seg_id := Some "S0"; seg_material_id := Some "M1";
     seg_target_timerange :=
       Some {| tr_start := Some 0; tr_duration := Some 9000000;
               tr_other := [] |};
     seg_source_timerange :=
       Some {| tr_start := Some 0; tr_duration := Some 9000000;
               tr_other := [] |};
     seg_other := [("volume", JFloat 0.5)] |}.

Definition demo_text_segment : Segment :=
  {| seg_id := Some "T0"; seg_material_id := Some "X1";
     seg_target_timerange :=
       Some {| tr_start := Some 1000000; tr_duration := Some 6000000;
               tr_other := [] |};
     seg_source_timerange := None;
     seg_other := [] |}.

Definition demo_text_track : Track :=
  {| track_type := Some "text"; track_segments := Some [demo_text_segment];
     track_other := [] |}.

Definition demo_video_track : Track :=
  {| track_type := Some "video"; track_segments := Some [demo_video_segment];
     track_other := [] |}.

Definition demo_material : VideoMaterial :=
  {| vm_id := Some "M1"; vm_path := Some "/media/a.mp4";
     vm_duration := Some 9000000; vm_width := Some 1080;
     vm_height := Some 1920; vm_other := [] |}.

Definition demo_content (tracks : list Track) : Content :=
  {| c_id := Some "P"; c_name := Some "demo"; c_duration := Some 9000000;
     c_update_time := None; c_tracks := Some tracks;
     c_materials :=
       Some {| mats_videos := Some [demo_material]; mats_other := [] |};
     c_other := [] |}.

Definition demo_project (tracks : list Track) : CapCutProject :=
  {| project_path := {| path_parent := "/drafts"; path_name := "P" |};
     _content := demo_content tracks;
     _meta := empty_meta |}.

Definition demo_uuid4 : UuidSource :=
  fun n => "UUID-" +:+ String (ascii_of_nat (65 + n)) "".

Definition demo_keep_segments : list KeepSegment :=
  [ {| ks_start := 0; ks_end := 1.0 |}; {| ks_start := 5.0; ks_end := 5.4 |} ].

(** The project after a cut plan has been applied: the segments of the
    track at position [i] are replaced and both durations are set to the
    end of the project. *)
Definition with_cut_plan (self : CapCutProject) (i : nat) (track : Track)
    (new_segments : list Segment) : CapCutProject :=
  let c := _content self in
  let tracks := <[i := with_segments track new_segments]> (tracks_of c) in
  {| project_path := project_path self;
     _content :=
       {| c_id := c_id c; c_name := c_name c;
          c_duration := Some (project_end tracks);
          c_update_time := c_update_time c; c_tracks := Some tracks;
          c_materials := c_materials c; c_other := c_other c |};
     _meta := set_tm_duration (_meta self) (project_end tracks) |}.



(** ** Copying a project *)

(** A file system with the directory of the demo project, which holds its
    content document, no metadata document and one media file. *)
Definition demo_source : CapCutProject :=
  demo_project [demo_text_track; demo_video_track].

Definition demo_fs : FS :=
  {[ project_path demo_source :=
       {| draft_info := Some (_content demo_source);
          draft_meta_info := None;
          dir_other := [("a.mp4", "bytes")] |} ]}.

(** * Further functions of the modules *)

From Stdlib Require Import Qround.

(** ** More Python primitives *)

Module PyNum.

(** [a // b] on floats: the floor of the quotient. *)
Definition floordiv (a b : Q) : Q := inject_Z (Qfloor (a / b)).

(** [a % b] on floats: [a - b * floor(a / b)], with the sign of [b]. *)
Definition modulo (a b : Q) : Q := (a - b * inject_Z (Qfloor (a / b)))%Q.

(** The decimal digits of a natural number, most significant first; [fuel]
    bounds the number of digits. *)
Fixpoint digits (fuel : nat) (n : N) (acc : string) : string :=
  match fuel with
  | O => acc
  | S fuel' =>
      let acc' := String (ascii_of_N (48 + n mod 10)) acc in
      if (n / 10 =? 0)%N then acc' else digits fuel' (n / 10)%N acc'
  end.

(** [str(n)] for [n >= 0]: a number has no more decimal digits than
    binary ones. *)
Definition str_N (n : N) : string := digits (S (N.to_nat (N.log2 n))) n "".

(** [str(z)] on an [int]. *)
Definition str (z : Z) : string :=
  if z <? 0 then "-" +:+ str_N (Z.abs_N z) else str_N (Z.to_N z).

(** [s.rjust(width, "0")] on digits: zeros in front up to [width]. *)
Definition zfill (width : nat) (s : string) : string :=
  String.concat "" (replicate (width - String.length s) "0") +:+ s.

(** [f"{z:0{width}d}"]: the sign, then the digits padded with zeros so that
    the whole has at least [width] characters. *)
Definition format_0d (width : nat) (z : Z) : string :=
  if z <? 0 then "-" +:+ zfill (width - 1) (str_N (Z.abs_N z))
  else zfill width (str_N (Z.to_N z)).

End PyNum.

(** ** [smartcut.core.models]: the formatted durations of [CutStats] *)

Definition time_saved_formatted (self : CutStats) : string :=
  let minutes := Py.int (PyNum.floordiv (removed_duration self) 60) in
  let seconds := Py.int (PyNum.modulo (removed_duration self) 60) in
  PyNum.str minutes +:+ ":" +:+ PyNum.format_0d 2 seconds.

Definition original_duration_formatted (self : CutStats) : string :=
  let minutes := Py.int (PyNum.floordiv (original_duration self) 60) in
  let seconds := Py.int (PyNum.modulo (original_duration self) 60) in
  PyNum.str minutes +:+ ":" +:+ PyNum.format_0d 2 seconds.

Definition kept_duration_formatted (self : CutStats) : string :=
  let minutes := Py.int (PyNum.floordiv (kept_duration self) 60) in
  let seconds := Py.int (PyNum.modulo (kept_duration self) 60) in
  PyNum.str minutes +:+ ":" +:+ PyNum.format_0d 2 seconds.

(** ** [smartcut.tools.analyze]: [analyze_content] *)

(** The ["summary"] dictionary of the result. *)
Record AnalysisSummary := {
  sum_original_duration : string;
  sum_final_duration : string;
  sum_time_saved : string;
  sum_paragraphs_total : Z;
  sum_paragraphs_kept : Z;
  sum_duplicates_removed : Z;
  sum_silences_removed : Z;
}.

(** The dictionary that [analyze_content] returns. *)
Record AnalysisOutput := {
  out_paragraphs : list Paragraph;
  out_cut_plan : CutPlan;
  out_summary : AnalysisSummary;
}.

(** [analyze_content]: [openai_api_key] is the key of the settings and
    [client] the language-model client built from it. *)
Definition analyze_content (openai_api_key : string) (client : LLMClient)
    (transcription : Transcription) (silence_threshold_sec : Q)
    (duplicate_detection : bool) : AnalysisOutput :=
  let paragraphs := find_paragraphs transcription silence_threshold_sec in
  let paragraphs :=
    if duplicate_detection
       && match paragraphs with [] => false | _ => true end
    then
      match openai_api_key with
      | EmptyString => paragraphs
      | _ => detect_duplicates_in_paragraphs client paragraphs
      end
    else paragraphs in
  let cut_plan :=
    build_cut_plan paragraphs transcription silence_threshold_sec in
  {| out_paragraphs := paragraphs;
     out_cut_plan := cut_plan;
     out_summary :=
       {| sum_original_duration :=
            original_duration_formatted (stats cut_plan);
          sum_final_duration := kept_duration_formatted (stats cut_plan);
          sum_time_saved := time_saved_formatted (stats cut_plan);
          sum_paragraphs_total := Z.of_nat (length paragraphs);
          sum_paragraphs_kept :=
            Z.of_nat (length (List.filter is_keep paragraphs));
          sum_duplicates_removed := duplicates_removed (stats cut_plan);
          sum_silences_removed := silences_removed (stats cut_plan) |} |}.

(** ** Notions for the further properties of the analysis *)


(** The number of pauses of at least [silence_threshold] between adjacent
    words. *)
Fixpoint long_pauses (silence_threshold : Q) (words : list TranscriptionWord)
    : nat :=
  match words with
  | word :: ((next_word :: _) as rest) =>
      (if Qle_bool silence_threshold (w_start next_word - w_end word)%Q
       then 1 else 0) + long_pauses silence_threshold rest
  | _ => O
  end.

(** The [remove_segments], [duplicates_removed] and [silences_removed]
    variables of a state of the loop of [build_cut_plan]. *)
Definition bcp_remove (st : bcp_state) : list CutSegment :=
  let '(_, remove_segments, _, _, _) := st in remove_segments.
Definition bcp_duplicates (st : bcp_state) : Z :=
  let '(_, _, _, duplicates_removed, _) := st in duplicates_removed.
Definition bcp_silences (st : bcp_state) : Z :=
  let '(_, _, _, _, silences_removed) := st in silences_removed.


(** ** [smartcut.tools.subtitles]: the SRT output *)

Definition format_srt_timestamp (seconds : Q) : string :=
  let hours := Py.int (PyNum.floordiv seconds 3600) in
  let minutes :=
    Py.int (PyNum.floordiv (PyNum.modulo seconds 3600) 60) in
  let secs := Py.int (PyNum.modulo seconds 60) in
  let millis := Py.int (PyNum.modulo seconds 1 * 1000)%Q in
  PyNum.format_0d 2 hours +:+ ":" +:+ PyNum.format_0d 2 minutes +:+ ":"
  +:+ PyNum.format_0d 2 secs +:+ "," +:+ PyNum.format_0d 3 millis.

(** The line feed ["\n"]. *)
Definition newline : string := String "010"%char "".

(** [generate_srt_content]: [enumerate(lines, start=1)] pairs the lines
    with [1, 2, ...]. *)
Definition generate_srt_content (lines : list Line) : string :=
  let srt_lines :=
    fold_left
      (fun srt_lines '(i, line) =>
         let start_ts := format_srt_timestamp (l_start line) in
         let end_ts := format_srt_timestamp (l_end line) in
         let srt_lines := srt_lines ++ [PyNum.str (Z.of_nat i)] in
         let srt_lines := srt_lines ++ [start_ts +:+ " --> " +:+ end_ts] in
         let srt_lines := srt_lines ++ [l_text line] in
         srt_lines ++ [""])
      (zip (seq 1 (length lines)) lines) [] in
  Py.join newline srt_lines.

(** ** Notions for the further properties of the captions *)

(** The remapped words are in time order and do not overlap. *)
Definition timeline_sequential (words : list TimelineWord) : Prop :=
  Forall (fun w => (tw_start w <= tw_end w)%Q) words /\
  adjacent (fun a b => (tw_end a <= tw_start b)%Q) words.

(** The caption lines are in time order and do not overlap. *)
Definition lines_sequential (lines : list Line) : Prop :=
  Forall (fun l => (l_start l <= l_end l)%Q) lines /\
  adjacent (fun a b => (l_end a <= l_start b)%Q) lines.

(** The block of one caption in an SRT file: its number, its time range and
    its text, each on a line of its own. *)
Definition srt_block (i : nat) (line : Line) : string :=
  PyNum.str (Z.of_nat i) +:+ newline
  +:+ (format_srt_timestamp (l_start line) +:+ " --> "
       +:+ format_srt_timestamp (l_end line)) +:+ newline
  +:+ l_text line +:+ newline.

(** ** [smartcut.core.capcut_reader]: further members of [CapCutProject] *)

(** The read-only properties of the class. *)
Module Project.

(** [self._content.get("id", self.project_path.name)]. *)
Definition project_id (self : CapCutProject) : string :=
  default (path_name (project_path self)) (c_id (_content self)).

(** [a or b or "Untitled"]: a name that is absent or empty is skipped. *)
Definition project_name (self : CapCutProject) : string :=
  match m_draft_name (_meta self) with
  | Some (String c s) => String c s
  | _ =>
      match c_name (_content self) with
      | Some (String c s) => String c s
      | _ => "Untitled"
      end
  end.

(** [self._content.get("duration", 0)]. *)
Definition duration_us (self : CapCutProject) : Z :=
  default 0 (c_duration (_content self)).

Definition duration (self : CapCutProject) : Q := seconds (duration_us self).

End Project.

(** The loop of [update_video_segments]: the segments of the first track of
    type ["video"] are replaced, then the loop is left. *)
Fixpoint replace_video_segments (new_segments : list Segment)
    (tracks : list Track) : list Track :=
  match tracks with
  | [] => []
  | track :: rest =>
      if bool_decide (track_type track = Some "video") then
        {| track_type := track_type track;
           track_segments := Some new_segments;
           track_other := track_other track |} :: rest
      else track :: replace_video_segments new_segments rest
  end.

(** [update_video_segments]: a document without the key ["tracks"] stays
    without it. *)
Definition update_video_segments (self : CapCutProject)
    (new_segments : list Segment) : CapCutProject :=
  let c := _content self in
  let self :=
    {| project_path := project_path self;
       _content :=
         {| c_id := c_id c; c_name := c_name c; c_duration := c_duration c;
            c_update_time := c_update_time c;
            c_tracks := replace_video_segments new_segments <$> c_tracks c;
            c_materials := c_materials c; c_other := c_other c |};
       _meta := _meta self |} in
  _update_duration self.

(** ** [smartcut.core.capcut_draft]: [TextStyle] *)

Record TextStyle := {
  style_font_size : Z;
  style_font_color : string;
  style_background_color : option string;
  style_background_alpha : Q;
  style_position_y : Q;
  style_bold : bool;
  style_font_path : string;
}.

(** [TextStyle()]: the defaults of the fields. *)
Definition TextStyle_default : TextStyle :=
  {| style_font_size := 8;
     style_font_color := "#FFFFFF";
     style_background_color := Some "#000000";
     style_background_alpha := 0.6;
     style_position_y := 0.8;
     style_bold := false;
     style_font_path := "" |}.

(** ** [smartcut.core.capcut_reader]: [add_text_track] *)

(** [d.get(key)] and [d[key] = v] on the keys of an object kept verbatim:
    the value of a key that is present is replaced in place, a new key
    comes last. *)
Fixpoint dict_get (key : string) (kvs : list (string * json))
    : option json :=
  match kvs with
  | [] => None
  | (k, v) :: rest =>
      if bool_decide (k = key) then Some v else dict_get key rest
  end.

Fixpoint dict_set (key : string) (v : json) (kvs : list (string * json))
    : list (string * json) :=
  match kvs with
  | [] => [(key, v)]
  | (k, x) :: rest =>
      if bool_decide (k = key) then (k, v) :: rest
      else (k, x) :: dict_set key v rest
  end.

(** [_build_text_material]; [json_dumps] stands for [json.dumps]. *)
Definition _build_text_material (json_dumps : json -> string)
    (material_id text : string) (style : TextStyle) : json :=
  let content :=
    JDict
      [("styles",
        JList
          [JDict
             [("fill",
               JDict [("alpha", JFloat 1.0);
                      ("content",
                       JDict [("render_type", JStr "solid");
                              ("solid",
                               JDict [("color",
                                       JList [JFloat 1.0; JFloat 1.0;
                                              JFloat 1.0])])])]);
              ("font", JDict [("id", JStr "");
                              ("path", JStr (style_font_path style))]);
              ("range", JList [JInt 0; JInt (Py.len text)]);
              ("size", JInt (style_font_size style))]]);
       ("text", JStr text)] in
  JDict
    [("id", JStr material_id);
     ("type", JStr "text");
     ("add_type", JInt 0);
     ("alignment", JInt 1);
     ("background_alpha", JFloat (style_background_alpha style));
     ("background_color",
      JStr match style_background_color style with
           | Some (String c s) => String c s
           | _ => ""
           end);
     ("background_style",
      JInt match style_background_color style with
           | Some (String _ _) => 1
           | _ => 0
           end);
     ("bold_width", JFloat (if style_bold style then 1.0 else 0.0));
     ("content", JStr (json_dumps content));
     ("font_size", JInt (style_font_size style));
     ("global_alpha", JFloat 1.0);
     ("line_max_width", JFloat 0.82);
     ("line_spacing", JFloat 0.02);
     ("text_color", JStr (style_font_color style));
     ("text_size", JInt (style_font_size style))].

(** [_build_text_segment]; [uuid] is the identifier it generates. *)
Definition _build_text_segment (uuid : string) (material_id : string)
    (start_us duration_us : Z) (position_y : Q) : Segment :=
  {| seg_id := Some uuid;
     seg_material_id := Some material_id;
     seg_target_timerange :=
       Some {| tr_start := Some start_us; tr_duration := Some duration_us;
               tr_other := [] |};
     seg_source_timerange :=
       Some {| tr_start := Some 0; tr_duration := Some duration_us;
               tr_other := [] |};
     seg_other :=
       [("clip",
         JDict [("alpha", JFloat 1.0);
                ("flip", JDict [("horizontal", JBool false);
                                ("vertical", JBool false)]);
                ("rotation", JFloat 0.0);
                ("scale", JDict [("x", JFloat 1.0); ("y", JFloat 1.0)]);
                ("transform",
                 JDict [("x", JFloat 0.0);
                        ("y", JFloat (position_y - 0.5))])]);
        ("render_index", JInt 11000);
        ("visible", JBool true);
        ("speed", JFloat 1.0)] |}.

(** One iteration of [for sub in subtitles], on the loop variables
    [(text_materials, new_segments, position_toggle)] and the number [n] of
    identifiers generated so far; a subtitle is read through its keys
    ["start"], ["end"] and ["text"]. *)
Definition add_text_track_body (json_dumps : json -> string)
    (uuid4 : UuidSource) (style : TextStyle)
    (st : list json * list Segment * bool * nat) (sub : Line)
    : list json * list Segment * bool * nat :=
  let '(text_materials, new_segments, position_toggle, n) := st in
  let start_us := to_us (l_start sub) in
  let end_us := to_us (l_end sub) in
  let duration_us := end_us - start_us in
  let text := l_text sub in
  let '(position_y, position_toggle) :=
    if Qeq_bool (style_position_y style) 0.8 then
      (if position_toggle then 0.2%Q else 0.8%Q, negb position_toggle)
    else (style_position_y style, position_toggle) in
  let material_id := uuid4 n in
  let text_material :=
    _build_text_material json_dumps material_id text style in
  let text_materials := text_materials ++ [text_material] in
  let segment :=
    _build_text_segment (uuid4 (S n)) material_id start_us duration_us
                        position_y in
  (text_materials, new_segments ++ [segment], position_toggle, S (S n)).

(** The search for the text track: the first track of type ["text"], with
    its position in the track list. *)
Fixpoint find_text_track_from (i : nat) (tracks : list Track)
    : option (nat * Track) :=
  match tracks with
  | [] => None
  | track :: rest =>
      if bool_decide (track_type track = Some "text") then Some (i, track)
      else find_text_track_from (S i) rest
  end.

(** [add_text_track]: the project after the call and the number of
    identifiers generated so far.  [None] stands for an exception: the
    [AttributeError] of [append] when ["texts"] holds something else than a
    list, and the [KeyError] of [text_track["segments"]] when the text
    track has no segment list. *)
Definition add_text_track (json_dumps : json -> string) (uuid4 : UuidSource)
    (n : nat) (self : CapCutProject) (subtitles : list Line)
    (style : option TextStyle) : option (CapCutProject * nat) :=
  match subtitles with
  | [] => Some (self, n)
  | _ =>
      let style := default TextStyle_default style in
      let c := _content self in
      let materials := default empty_materials (c_materials c) in
      let texts :=
        match dict_get "texts" (mats_other materials) with
        | None => Some []
        | Some (JList text_materials) => Some text_materials
        | Some _ => None
        end in
      match texts with
      | None => None
      | Some text_materials =>
          let '(text_materials, new_segments, _, n) :=
            fold_left (add_text_track_body json_dumps uuid4 style)
                      subtitles (text_materials, [], false, n) in
          let materials :=
            {| mats_videos := mats_videos materials;
               mats_other :=
                 dict_set "texts" (JList text_materials)
                          (mats_other materials) |} in
          let tracks :=
            match find_text_track_from 0 (tracks_of c) with
            | Some (i, text_track) =>
                match track_segments text_track with
                | Some segments =>
                    Some (<[i := {| track_type := track_type text_track;
                                    track_segments :=
                                      Some (segments ++ new_segments);
                                    track_other := track_other text_track |}]>
                            (tracks_of c),
                          n)
                | None => None
                end
            | None =>
                Some (tracks_of c
                        ++ [{| track_type := Some "text";
                               track_segments := Some ([] ++ new_segments);
                               track_other :=
                                 [("attribute", JInt 0);
                                  ("flag", JInt 0);
                                  ("id", JStr (uuid4 n));
                                  ("is_default_name", JBool true);
                                  ("name", JStr "")] |}],
                      S n)
            end in
          match tracks with
          | None => None
          | Some (tracks, n) =>
              let self :=
                {| project_path := project_path self;
                   _content :=
                     {| c_id := c_id c; c_name := c_name c;
                        c_duration := c_duration c;
                        c_update_time := c_update_time c;
                        c_tracks := Some tracks;
                        c_materials := Some materials;
                        c_other := c_other c |};
                   _meta := _meta self |} in
              Some (_update_duration self, n)
          end
      end
  end.

(** ** Notions for the properties of [add_text_track] *)

(** The track has the type ["text"]. *)
Definition is_text (track : Track) : Prop := track_type track = Some "text".

#[global] Instance is_text_dec (track : Track) : Decision (is_text track).
Proof. unfold is_text. apply _. Defined.

(** The text materials of a document: the list under ["texts"]. *)
Definition text_materials_of (c : Content) : list json :=
  match dict_get "texts"
          (mats_other (default empty_materials (c_materials c))) with
  | Some (JList text_materials) => text_materials
  | _ => []
  end.

(** ["texts"] is absent from the materials or holds a list. *)
Definition texts_well_formed (c : Content) : Prop :=
  match dict_get "texts"
          (mats_other (default empty_materials (c_materials c))) with
  | None | Some (JList _) => True
  | Some _ => False
  end.

(** The vertical position of the [k]-th caption: the default position
    alternates between bottom and top. *)
Definition caption_position (style : TextStyle) (k : nat) : Q :=
  if Qeq_bool (style_position_y style) 0.8 then
    if Nat.even k then 0.8 else 0.2
  else style_position_y style.

(** The material and the segment built for the [k]-th subtitle. *)
Definition new_text_material (json_dumps : json -> string)
    (uuid4 : UuidSource) (n : nat) (style : TextStyle) (k : nat)
    (sub : Line) : json :=
  _build_text_material json_dumps (uuid4 (n + 2 * k)%nat) (l_text sub) style.

Definition new_text_segment (uuid4 : UuidSource) (n : nat)
    (style : TextStyle) (k : nat) (sub : Line) : Segment :=
  _build_text_segment (uuid4 (n + 2 * k + 1)%nat) (uuid4 (n + 2 * k)%nat)
    (to_us (l_start sub)) (to_us (l_end sub) - to_us (l_start sub))
    (caption_position style k).

(** The track created when the project has no text track. *)
Definition new_text_track (uuid : string) (segments : list Segment)
    : Track :=
  {| track_type := Some "text";
     track_segments := Some segments;
     track_other :=
       [("attribute", JInt 0); ("flag", JInt 0); ("id", JStr uuid);
        ("is_default_name", JBool true); ("name", JStr "")] |}.

(** The project with the text materials and the tracks replaced and both
    durations set to the end of the project. *)
Definition with_text_track (self : CapCutProject)
    (text_materials : list json) (tracks : list Track) : CapCutProject :=
  let c := _content self in
  let materials := default empty_materials (c_materials c) in
  {| project_path := project_path self;
     _content :=
       {| c_id := c_id c; c_name := c_name c;
          c_duration := Some (project_end tracks);
          c_update_time := c_update_time c; c_tracks := Some tracks;
          c_materials :=
            Some {| mats_videos := mats_videos materials;
                    mats_other :=
                      dict_set "texts" (JList text_materials)
                               (mats_other materials) |};
          c_other := c_other c |};
     _meta := set_tm_duration (_meta self) (project_end tracks) |}.


(** ** [smartcut.core.capcut_reader]: [get_text_segments] *)






(** ** Notions for reading the captions back *)







(** * Proofs *)

(** ** Lists *)

Lemma List_last_snoc {A} (l : list A) (x d : A) : List.last (l ++ [x]) d = x.
Proof. apply List.last_last. Qed.

Lemma last_List_last {A} (l : list A) (x d : A) :
  last (x :: l) = Some (List.last (x :: l) d).
Proof.
  revert x. induction l as [|y l IH]; intros x; [done|].
  change (last (x :: y :: l)) with (last (y :: l)).
  change (List.last (x :: y :: l) d) with (List.last (y :: l) d).
  apply IH.
Qed.


(** ** Transcript segmenter *)

Lemma enumerate_fold_fp_loop thr (pre rest : list TranscriptionWord) st :
  fold_left (find_paragraphs_body (pre ++ rest) thr)
            (zip (seq (length pre) (length rest)) rest) st
  = fp_loop thr rest st.
Proof.
  revert pre st. induction rest as [|word rest IH]; intros pre st; [done|].
  destruct st as [[paragraphs current_words] paragraph_id].
  cbn [length seq zip zip_with fold_left].
  specialize (IH (pre ++ [word])).
  rewrite <- app_assoc, length_app in IH. cbn [app length] in IH.
  replace (length pre + 1)%nat with (S (length pre)) in IH by lia.
  rewrite IH. clear IH.
  unfold find_paragraphs_body.
  rewrite length_app. cbn [length].
  replace ((pre ++ word :: rest) !! (length pre + 1)%nat) with (rest !! 0%nat).
  2:{ rewrite lookup_app_r by lia.
      by replace (length pre + 1 - length pre)%nat with 1%nat by lia. }
  destruct rest as [|next_word rest].
  - cbn [length].
    replace (length pre <? length pre + 1 - 1)%nat with false; [done|].
    symmetry. apply Nat.ltb_ge. lia.
  - cbn [length lookup].
    replace (length pre <? length pre + S (S (length rest)) - 1)%nat with true.
    2:{ symmetry. apply Nat.ltb_lt. lia. }
    cbn [fp_loop list_lookup].
    destruct (Qle_bool _ _); [|done].
    by destruct (current_words ++ [word]).
Qed.

Lemma find_paragraphs_fp_loop tr thr :
  find_paragraphs tr thr = fp_flush (fp_loop thr (get_all_words tr) ([], [], 0)).
Proof.
  unfold find_paragraphs, Py.enumerate.
  destruct (get_all_words tr) as [|w ws] eqn:E; [done|].
  rewrite <- (enumerate_fold_fp_loop thr [] (w :: ws)).
  done.
Qed.

Lemma fp_loop_closed_form thr words paragraphs current_words paragraph_id :
  fp_flush (fp_loop thr words (paragraphs, current_words, paragraph_id))
  = paragraphs
      ++ paragraphs_from paragraph_id (split_at_pauses thr current_words words).
Proof.
  revert paragraphs current_words paragraph_id.
  induction words as [|word rest IH]; intros paragraphs current_words pid.
  - simpl. destruct current_words; simpl; [by rewrite app_nil_r|done].
  - cbn [fp_loop split_at_pauses].
    destruct rest as [|next_word rest'].
    + simpl. destruct (current_words ++ [word]) eqn:E; [|done].
      by destruct current_words.
    + destruct (Qle_bool _ _).
      * destruct (current_words ++ [word]) as [|first l] eqn:E.
        { by destruct current_words. }
        rewrite IH. cbn [paragraphs_from]. by rewrite <- app_assoc.
      * by rewrite IH.
Qed.

Lemma find_paragraphs_closed_form tr thr :
  find_paragraphs tr thr
  = paragraphs_from 0 (split_at_pauses thr [] (get_all_words tr)).
Proof. by rewrite find_paragraphs_fp_loop, fp_loop_closed_form. Qed.

Lemma split_at_pauses_concat thr pending words :
  concat (split_at_pauses thr pending words) = pending ++ words.
Proof.
  revert pending. induction words as [|word rest IH]; intros pending.
  - destruct pending; simpl; by rewrite ?app_nil_r.
  - cbn [split_at_pauses]. destruct rest as [|next_word rest'].
    + simpl. by rewrite app_nil_r.
    + destruct (Qle_bool _ _).
      * cbn [concat]. rewrite IH. by rewrite <- app_assoc.
      * rewrite IH. by rewrite <- app_assoc.
Qed.

Lemma split_at_pauses_nonempty thr pending words :
  Forall (fun g => g <> []) (split_at_pauses thr pending words).
Proof.
  revert pending. induction words as [|word rest IH]; intros pending.
  - destruct pending; simpl; repeat constructor; done.
  - cbn [split_at_pauses]. destruct rest as [|next_word rest'].
    + repeat constructor. by destruct pending.
    + destruct (Qle_bool _ _); [|apply IH].
      constructor; [by destruct pending | apply IH].
Qed.



Lemma paragraphs_from_length pid groups :
  Forall (fun g => g <> []) groups ->
  length (paragraphs_from pid groups) = length groups.
Proof.
  intros H. revert pid. induction H as [|g groups Hg _ IH]; intros pid; [done|].
  destruct g; [done|]. simpl. by rewrite IH.
Qed.



(** ** Relations on all ordered pairs of a list *)

Lemma all_pairs_lookup {A} (R : A -> A -> Prop) (l : list A) :
  all_pairs R l <->
  forall i j x y, (i < j)%nat -> l !! i = Some x -> l !! j = Some y -> R x y.
Proof.
  induction l as [|a l IH]; simpl.
  - split; [|done]. intros _ i j x y _ Hi. done.
  - rewrite IH. split.
    + intros [Ha Hl] i j x y Hij Hi Hj.
      destruct j as [|j]; [lia|]. simpl in Hj.
      destruct i as [|i]; simpl in Hi.
      * simplify_eq. rewrite Forall_forall in Ha.
        apply Ha. by eapply list_elem_of_lookup_2.
      * eapply (Hl i j); [lia|done..].
    + intros H. split.
      * apply Forall_forall. intros y Hy.
        apply list_elem_of_lookup_1 in Hy as [j Hj].
        by apply (H 0%nat (S j)); [lia|..].
      * intros i j x y Hij Hi Hj. by apply (H (S i) (S j)); [lia|..].
Qed.

Lemma all_pairs_filter {A} (R : A -> A -> Prop) (f : A -> bool) l :
  all_pairs R l -> all_pairs R (List.filter f l).
Proof.
  induction l as [|a l IH]; simpl; [done|]. intros [Ha Hl].
  destruct (f a); simpl; [|by apply IH].
  split; [|by apply IH].
  apply Forall_forall. intros y Hy.
  apply list_elem_of_In, List.filter_In in Hy as [Hy _].
  rewrite Forall_forall in Ha. by apply Ha, list_elem_of_In.
Qed.

Lemma all_pairs_map {A B} (R : A -> A -> Prop) (S : B -> B -> Prop)
    (f : A -> B) l :
  (forall x y, R x y -> S (f x) (f y)) ->
  all_pairs R l -> all_pairs S (map f l).
Proof.
  intros HRS. induction l as [|a l IH]; simpl; [done|]. intros [Ha Hl].
  split; [|by apply IH].
  apply Forall_fmap. eapply Forall_impl; [done|]. intros y. apply HRS.
Qed.


(** ** Sorting *)

Lemma Qlt_bool_true a b : Py.Qlt_bool a b = true <-> (a < b)%Q.
Proof.
  unfold Py.Qlt_bool. rewrite negb_true_iff.
  split.
  - intros H. apply Qnot_le_lt. intros Hle. apply Qle_bool_iff in Hle.
    congruence.
  - intros H. destruct (Qle_bool b a) eqn:E; [|done].
    apply Qle_bool_iff in E. by apply Qle_not_lt in E.
Qed.

Lemma Qlt_bool_false a b : Py.Qlt_bool a b = false <-> (b <= a)%Q.
Proof.
  unfold Py.Qlt_bool. rewrite negb_false_iff. apply Qle_bool_iff.
Qed.

Lemma sorted_insert_Permutation {A} (key : A -> Q) x l :
  sorted_insert key x l ≡ₚ x :: l.
Proof.
  induction l as [|y l IH]; simpl; [done|].
  destruct (Py.Qlt_bool _ _); [|done].
  rewrite IH. apply perm_swap.
Qed.

Lemma sorted_Permutation {A} (key : A -> Q) (l : list A) :
  sorted key l ≡ₚ l.
Proof.
  induction l as [|x l IH]; simpl; [done|].
  by rewrite sorted_insert_Permutation, IH.
Qed.



(** ** Sums of rationals *)






(** ** Cut-plan builder *)

Lemma bcp_keep_fold tr thr (l : list Paragraph) (st : bcp_state) :
  bcp_keep (fold_left (build_cut_plan_body tr thr) l st)
  = bcp_keep st ++ map (keep_segment_of tr) (List.filter is_keep l).
Proof.
  revert st. induction l as [|p l IH]; intros st; simpl.
  - by rewrite app_nil_r.
  - rewrite IH. clear IH.
    destruct st as [[[[ks rs] prev_end] dup] sil].
    unfold build_cut_plan_body, is_keep.
    destruct (Qle_bool _ _); destruct (p_action p); simpl;
      by rewrite <- ?app_assoc.
Qed.

Lemma build_cut_plan_keep_segments paragraphs tr thr :
  keep_segments (build_cut_plan paragraphs tr thr)
  = map (keep_segment_of tr) (List.filter is_keep (sorted p_start paragraphs)).
Proof.
  unfold build_cut_plan.
  pose proof (bcp_keep_fold tr thr (sorted p_start paragraphs)
                ([], [], 0%Q, 0, 0)) as H.
  destruct (fold_left _ _ _) as [[[[ks rs] prev_end] dup] sil].
  simpl in *. done.
Qed.






(** ** The example of the specification *)




(** ** Timeline remapper *)

Lemma map_words_fold words segments tws offset :
  fold_left (map_words_body words) segments (tws, offset)
  = (tws ++ remap_from words offset segments,
     fold_left (fun off s => (off + (cs_end s - cs_start s))%Q) segments offset).
Proof.
  revert tws offset. induction segments as [|s rest IH]; intros tws offset.
  - simpl. by rewrite app_nil_r.
  - cbn [fold_left remap_from]. unfold map_words_body at 2.
    fold (segment_words words s).
    assert (Hin : forall l acc,
              fold_left (fun timeline_words word =>
                           timeline_words ++ [remap_word s offset word]) l acc
              = acc ++ map (remap_word s offset) l).
    { induction l as [|w l IHl]; intros acc; simpl.
      - by rewrite app_nil_r.
      - rewrite IHl. by rewrite <- app_assoc. }
    rewrite Hin, IH. by rewrite <- app_assoc.
Qed.

Lemma map_words_to_timeline_remap_from words segments :
  map_words_to_timeline words segments = remap_from words 0 segments.
Proof. unfold map_words_to_timeline. by rewrite map_words_fold. Qed.

Lemma Py_min_le_l a b : (Py.min a b <= a)%Q.
Proof.
  unfold Py.min. destruct (Py.Qlt_bool b a) eqn:E.
  - apply Qlt_bool_true in E. by apply Qlt_le_weak.
  - apply Qle_refl.
Qed.

Lemma Py_min_le_r a b : (Py.min a b <= b)%Q.
Proof.
  unfold Py.min. destruct (Py.Qlt_bool b a) eqn:E.
  - apply Qle_refl.
  - by apply Qlt_bool_false in E.
Qed.

Lemma total_span_nonneg segments :
  segments_well_formed segments -> (0 <= total_span segments)%Q.
Proof.
  induction 1 as [|s l Hs _ IH]; simpl; [done|].
  unfold span. lra.
Qed.



Lemma words_sequential_all_pairs words :
  words_sequential words ->
  all_pairs (fun a b => (w_end a <= w_start b)%Q) words.
Proof.
  intros [Hwf Hadj]. induction Hadj as [|x|x y l Hxy Hadj IH]; simpl.
  - done.
  - by split.
  - apply Forall_cons in Hwf as [Hx Hwf].
    destruct (IH Hwf) as [Hy Hl]. split_and!; [|done..].
    constructor; [done|].
    apply Forall_cons in Hwf as [Hy' _].
    eapply Forall_impl; [done|]. intros z Hz. simpl in *. lra.
Qed.


Lemma segment_words_bounds words segment :
  Forall (fun w => (cs_start segment <= w_start w)%Q
                   /\ (w_start w < cs_end segment)%Q)
         (segment_words words segment).
Proof.
  apply Forall_forall. intros w Hw.
  apply list_elem_of_In, List.filter_In in Hw as [_ Hw].
  apply andb_true_iff in Hw as [H1 H2].
  split; [by apply Qle_bool_iff | by apply Qlt_bool_true].
Qed.





(** ** Duplicate resolver *)

Lemma fold_left_union_elem_of (l : list Z) (s : gset Z) (id : Z) :
  id ∈ fold_left (fun s block_id => s ∪ {[block_id]}) l s <-> id ∈ s \/ id ∈ l.
Proof.
  revert s. induction l as [|b l IH]; intros s; simpl.
  - rewrite elem_of_nil. tauto.
  - rewrite IH, elem_of_union, elem_of_singleton, elem_of_cons. tauto.
Qed.

Lemma fold_left_insert_lookup (l : list Z) (g : DuplicateGroup)
    (m : gmap Z DuplicateGroup) (id : Z) :
  fold_left (fun m block_id => <[block_id := g]> m) l m !! id
  = if bool_decide (id ∈ l) then Some g else m !! id.
Proof.
  revert m. induction l as [|b l IH]; intros m; simpl.
  - done.
  - rewrite IH. destruct (decide (id ∈ l)) as [Hl|Hl].
    + rewrite !bool_decide_eq_true_2; [done| |done]. by right.
    + rewrite (bool_decide_eq_false_2 _ Hl).
      destruct (decide (b = id)) as [->|Hne].
      * rewrite lookup_insert_eq, bool_decide_eq_true_2; [done|]. left.
      * rewrite lookup_insert_ne, bool_decide_eq_false_2; [done| |done].
        intros [->|?]%elem_of_cons; done.
Qed.

Lemma owning_group_cons g groups id :
  owning_group (g :: groups) id
  = match owning_group groups id with
    | Some g' => Some g'
    | None => if bool_decide (id ∈ block_ids g) then Some g else None
    end.
Proof.
  unfold owning_group. rewrite filter_cons.
  case_decide as H; case_bool_decide; try done.
  - by rewrite last_cons.
  - by destruct (last _).
Qed.

Lemma collect_groups_fold groups remove_ids group_map id :
  let st := fold_left collect_groups_body groups (remove_ids, group_map) in
  (id ∈ st.1 <-> id ∈ remove_ids \/ in_remove_list groups id) /\
  st.2 !! id = match owning_group groups id with
               | Some g => Some g
               | None => group_map !! id
               end.
Proof.
  revert remove_ids group_map.
  induction groups as [|g groups IH]; intros remove_ids group_map; simpl.
  - split; [|done]. unfold in_remove_list. split; [by left|].
    intros [?|(g & Hg & _)]; [done|]. by apply elem_of_nil in Hg.
  - destruct (IH (fold_left (fun s block_id => s ∪ {[block_id]})
                            (g_remove g) remove_ids)
                 (fold_left (fun m block_id => <[block_id := g]> m)
                            (block_ids g) group_map)) as [IH1 IH2].
    split.
    + rewrite IH1, fold_left_union_elem_of. unfold in_remove_list.
      split.
      * intros [[?|?]|(g' & ? & ?)]; [by left|right..].
        -- exists g. split; [left|done].
        -- exists g'. split; [by right|done].
      * intros [?|(g' & [->|?]%elem_of_cons & ?)]; [by left; left| |].
        -- by left; right.
        -- right. by exists g'.
    + rewrite IH2, owning_group_cons, fold_left_insert_lookup.
      destruct (owning_group groups id); [done|]. by case_bool_decide.
Qed.

Lemma collect_groups_spec groups id :
  (id ∈ (collect_groups groups).1 <-> in_remove_list groups id) /\
  (collect_groups groups).2 !! id = owning_group groups id.
Proof.
  destruct (collect_groups_fold groups ∅ ∅ id) as [H1 H2].
  unfold collect_groups. split.
  - rewrite H1. split; [|by right].
    intros [H|?]; [|done]. by apply elem_of_empty in H.
  - rewrite H2. by destruct (owning_group groups id).
Qed.

Lemma owning_group_member groups id :
  is_Some (owning_group groups id) <-> group_member groups id.
Proof.
  unfold owning_group, group_member. split.
  - intros [g Hg]. apply last_Some_elem_of in Hg.
    apply list_elem_of_filter in Hg as [? ?]. by exists g.
  - intros (g & Hg & Hid).
    assert (Hin : g ∈ filter (fun g => id ∈ block_ids g) groups)
      by by apply list_elem_of_filter.
    destruct (filter _ groups) as [|x l] eqn:E using rev_ind.
    + by apply elem_of_nil in Hin.
    + rewrite last_snoc. by eexists.
Qed.

Lemma update_paragraphs_fold remove_ids group_map (l acc : list Paragraph) :
  fold_left
    (fun updated_paragraphs p =>
       updated_paragraphs ++ [update_paragraph remove_ids group_map p])
    l acc
  = acc ++ map (update_paragraph remove_ids group_map) l.
Proof.
  revert acc. induction l as [|p l IH]; intros acc; simpl.
  - by rewrite app_nil_r.
  - by rewrite IH, <- app_assoc.
Qed.

Lemma detect_duplicates_map client paragraphs :
  let groups := client (map (fun p => (p_id p, p_text p)) paragraphs) in
  detect_duplicates_in_paragraphs client paragraphs
  = map (update_paragraph (collect_groups groups).1 (collect_groups groups).2)
        paragraphs.
Proof.
  intros groups. subst groups. unfold detect_duplicates_in_paragraphs.
  destruct paragraphs as [|p l]; [done|].
  destruct (collect_groups _) as [remove_ids group_map].
  by rewrite update_paragraphs_fold.
Qed.

(** C5 (amended).  [detect_duplicates_in_paragraphs] returns one paragraph
    per paragraph given, with the same id, times and text.  A paragraph
    whose id is in the [remove] list of some returned group has the action
    [remove]; its reason is ["duplicate_take: "] followed by the reason of
    the last returned group whose [block_ids] list the id, and its
    [group_id] is the [keep] of that group; when no group lists the id in
    its [block_ids] the reason is ["duplicate_take"] and there is no
    [group_id].  A paragraph whose id is in the [block_ids] of a group and
    in no [remove] list has the action [keep], the reason ["best_take"] and
    its own id as [group_id].  Every other paragraph is returned
    unchanged. *)
Theorem detect_duplicates_in_paragraphs_spec
    (client : LLMClient) (paragraphs : list Paragraph) :
  let groups := client (map (fun p => (p_id p, p_text p)) paragraphs) in
  let updated := detect_duplicates_in_paragraphs client paragraphs in
  length updated = length paragraphs /\
  forall i p q, paragraphs !! i = Some p -> updated !! i = Some q ->
    (p_id q = p_id p /\ p_start q = p_start p /\ p_end q = p_end p /\
     p_text q = p_text p) /\
    (in_remove_list groups (p_id p) ->
     p_action q = remove /\
     match owning_group groups (p_id p) with
     | Some g =>
         p_reason q = "duplicate_take: " +:+ g_reason g /\
         p_group_id q = Some (g_keep g)
     | None => p_reason q = "duplicate_take" /\ p_group_id q = None
     end) /\
    (~ in_remove_list groups (p_id p) -> group_member groups (p_id p) ->
     p_action q = keep /\ p_reason q = "best_take" /\
     p_group_id q = Some (p_id p)) /\
    (~ in_remove_list groups (p_id p) -> ~ group_member groups (p_id p) ->
     q = p).
Proof.
  intros groups updated. subst updated.
  rewrite detect_duplicates_map. fold groups.
  split; [by rewrite length_map|].
  intros i p q Hp Hq.
  rewrite list_lookup_fmap, Hp in Hq. injection Hq as <-.
  destruct (collect_groups_spec groups (p_id p)) as [Hrem Hmap].
  unfold update_paragraph.
  case_bool_decide as Hr.
  - apply Hrem in Hr. rewrite Hmap. split_and!; try done.
    intros _. split; [done|]. by destruct (owning_group groups (p_id p)).
  - assert (Hnr : ~ in_remove_list groups (p_id p)) by by rewrite <- Hrem.
    case_bool_decide as Hm.
    + split_and!; try done.
      intros _ Hno. destruct Hno. apply owning_group_member.
      rewrite <- Hmap. by apply elem_of_dom.
    + split_and!; try done.
      intros _ Hmem. destruct Hm. apply elem_of_dom. rewrite Hmap.
      by apply owning_group_member.
Qed.

(** C5, as stated, fails: a paragraph removed by a group that does not list
    it in [block_ids] gets the bare reason ["duplicate_take"] and no
    [group_id]; a paragraph removed by one group and listed by a later one
    gets the reason and the [keep] of the later group. *)
Lemma detect_duplicates_other_group :
  ~ (forall q g,
       q ∈ detect_duplicates_in_paragraphs (fun _ => foreign_remove_groups)
             [lone_paragraph] ->
       g ∈ foreign_remove_groups -> p_id q ∈ g_remove g ->
       p_reason q = "duplicate_take: " +:+ g_reason g /\
       p_group_id q = Some (g_keep g)) /\
  ~ (forall q g,
       q ∈ detect_duplicates_in_paragraphs (fun _ => shared_id_groups)
             [lone_paragraph] ->
       g ∈ shared_id_groups -> p_id q ∈ g_remove g ->
       p_reason q = "duplicate_take: " +:+ g_reason g /\
       p_group_id q = Some (g_keep g)).
Proof.
  split; intros H.
  - set (out := detect_duplicates_in_paragraphs _ _) in H.
    vm_compute in out. subst out.
    edestruct H as [_ Hg]; [left|left|left|]. done.
  - set (out := detect_duplicates_in_paragraphs _ _) in H.
    vm_compute in out. subst out.
    edestruct H as [_ Hg]; [left|left|left|]. done.
Qed.

(** ** Caption line grouper *)

Lemma line_text_snoc g word :
  line_text (g ++ [word])
  = Py.strip (line_text g +:+ " " +:+ Py.strip (tw_word word)).
Proof. unfold line_text. by rewrite fold_left_app. Qed.

Lemma group_words_fold max_words max_chars words lines pending :
  gw_flush (fold_left (group_words_body max_words max_chars) words
              (lines, pending, line_text pending))
  = lines ++ lines_from (line_groups max_words max_chars pending words).
Proof.
  revert lines pending. induction words as [|word rest IH]; intros lines pending.
  - simpl. destruct pending; simpl; by rewrite ?app_nil_r.
  - cbn [fold_left line_groups]. unfold group_words_body at 2.
    rewrite <- line_text_snoc.
    destruct pending as [|first pending'].
    + change ([] ++ [word]) with [word]. apply (IH _ [word]).
    + set (pending := first :: pending').
      destruct (_ || _).
      * change ([] ++ [word]) with [word].
        change (Py.strip ("" +:+ " " +:+ Py.strip (tw_word word)))
          with (line_text [word]).
        rewrite (IH _ [word]). subst pending. cbn [lines_from].
        by rewrite <- app_assoc.
      * rewrite <- line_text_snoc. exact (IH lines (pending ++ [word])).
Qed.

Lemma group_words_into_lines_closed_form words max_words max_chars :
  group_words_into_lines words max_words max_chars
  = lines_from (line_groups max_words max_chars [] words).
Proof.
  rewrite <- (app_nil_l (lines_from _)).
  rewrite <- (group_words_fold max_words max_chars words [] []).
  unfold group_words_into_lines. by destruct words.
Qed.

Lemma line_groups_concat max_words max_chars pending words :
  concat (line_groups max_words max_chars pending words) = pending ++ words.
Proof.
  revert pending. induction words as [|word rest IH]; intros pending.
  - destruct pending; simpl; by rewrite ?app_nil_r.
  - cbn [line_groups]. destruct pending as [|first pending'].
    + by rewrite IH.
    + destruct (_ || _).
      * cbn [concat]. by rewrite IH.
      * by rewrite IH, <- app_assoc.
Qed.

(** An invariant of the open group is inherited by every group. *)
Lemma line_groups_Forall (P : list TimelineWord -> Prop)
    max_words max_chars pending words :
  (forall word, P [word]) ->
  (forall g word,
     g <> [] -> P g ->
     (Z.of_nat (length g) >=? max_words)
     || (Py.len (line_text (g ++ [word])) >? max_chars) = false ->
     P (g ++ [word])) ->
  P pending ->
  Forall P (line_groups max_words max_chars pending words).
Proof.
  intros Hone Hsnoc. revert pending.
  induction words as [|word rest IH]; intros pending Hp.
  - destruct pending; simpl; by repeat constructor.
  - cbn [line_groups]. destruct pending as [|first pending'].
    + by apply IH.
    + destruct (_ || _) eqn:E.
      * constructor; [done|]. by apply IH.
      * apply IH. by apply Hsnoc.
Qed.

Lemma line_groups_nonempty max_words max_chars words :
  Forall (fun g => g <> []) (line_groups max_words max_chars [] words).
Proof.
  destruct words as [|word rest]; [constructor|]. cbn [line_groups].
  apply line_groups_Forall; [done| |done].
  intros [|? ?] ? ? ? ?; done.
Qed.

Lemma line_groups_max_words max_words max_chars words :
  1 <= max_words ->
  Forall (fun g => Z.of_nat (length g) <= max_words)
         (line_groups max_words max_chars [] words).
Proof.
  intros Hmw. destruct words as [|word rest]; [constructor|].
  cbn [line_groups]. apply line_groups_Forall.
  - intros w. simpl. lia.
  - intros g w _ Hg [H1 _]%orb_false_iff. rewrite length_app. simpl. lia.
  - simpl. lia.
Qed.

Lemma line_groups_max_chars max_words max_chars words :
  Forall (fun g => (2 <= length g)%nat -> Py.len (line_text g) <= max_chars)
         (line_groups max_words max_chars [] words).
Proof.
  destruct words as [|word rest]; [constructor|].
  cbn [line_groups]. apply line_groups_Forall.
  - intros w. simpl. lia.
  - intros g w _ _ [_ H2]%orb_false_iff _. lia.
  - simpl. lia.
Qed.

Lemma lines_from_length groups :
  Forall (fun g => g <> []) groups ->
  length (lines_from groups) = length groups.
Proof.
  induction 1 as [|g groups Hg _ IH]; [done|].
  destruct g; [done|]. simpl. by rewrite IH.
Qed.

Lemma lines_from_lookup groups i g :
  Forall (fun g => g <> []) groups ->
  groups !! i = Some g ->
  exists first lst, head g = Some first /\ last g = Some lst /\
    lines_from groups !! i
    = Some {| l_start := tw_start first; l_end := tw_end lst;
              l_text := line_text g |}.
Proof.
  intros H. revert i. induction H as [|g' groups Hg _ IH]; intros i; [done|].
  destruct g' as [|first l]; [done|].
  destruct i as [|i]; simpl.
  - intros [= <-]. exists first, (List.last (first :: l) first).
    split_and!; [done|apply last_List_last|done].
  - apply IH.
Qed.

(** C7 (amended).  The lines of [group_words_into_lines] are built from
    consecutive non-empty groups of the words, in order: a line starts with
    its first word, ends with its last and carries the text accumulated
    from its words.  When [max_words] is at least one, no line is built
    from more than [max_words] words; and every line built from two or more
    words has a text of at most [max_chars] characters. *)
Theorem group_words_into_lines_limits
    (words : list TimelineWord) (max_words max_chars : Z) :
  let lines := group_words_into_lines words max_words max_chars in
  exists groups : list (list TimelineWord),
    concat groups = words /\
    length lines = length groups /\
    forall i line g, lines !! i = Some line -> groups !! i = Some g ->
      (exists first lst, head g = Some first /\ last g = Some lst /\
         l_start line = tw_start first /\ l_end line = tw_end lst) /\
      l_text line = line_text g /\
      (1 <= max_words -> Z.of_nat (length g) <= max_words) /\
      ((2 <= length g)%nat -> Py.len (l_text line) <= max_chars).
Proof.
  intros lines. subst lines. rewrite group_words_into_lines_closed_form.
  set (groups := line_groups max_words max_chars [] words).
  assert (Hne : Forall (fun g => g <> []) groups)
    by apply line_groups_nonempty.
  exists groups. split_and!.
  - apply line_groups_concat.
  - by apply lines_from_length.
  - intros i line g Hline Hg.
    destruct (lines_from_lookup groups i g Hne Hg)
      as (first & lst & Hf & Hl & Hline').
    rewrite Hline in Hline'. injection Hline' as ->. cbn [l_start l_end l_text].
    split_and!.
    + by exists first, lst.
    + done.
    + intros Hmw.
      pose proof (line_groups_max_words max_words max_chars words Hmw) as H.
      rewrite Forall_forall in H. apply H. by eapply list_elem_of_lookup_2.
    + pose proof (line_groups_max_chars max_words max_chars words) as H.
      rewrite Forall_forall in H. apply H. by eapply list_elem_of_lookup_2.
Qed.

(** C7, as stated, fails.  With [max_chars = 5] the pending line
    ["supercalifragilistic"] is flushed because appending ["b"] would exceed
    [max_chars], and its text has twenty characters; with [max_words = 0]
    every line has one word. *)
Lemma group_words_into_lines_long_word :
  (let '(lines, current_line_words, current_line_text) :=
     fold_left (group_words_body 8 5) [long_word] ([], [], "") in
   current_line_words = [long_word] /\
   (Z.of_nat (length current_line_words) >=? 8) = false /\
   (Py.len (Py.strip (current_line_text +:+ " "
                      +:+ Py.strip (tw_word short_word))) >? 5) = true) /\
  (exists line,
     group_words_into_lines [long_word; short_word] 8 5 !! 0%nat = Some line /\
     ~ Py.len (l_text line) <= 5) /\
  group_words_into_lines [short_word] 0 45
  = [ {| l_start := 1; l_end := 2; l_text := "b" |} ].
Proof.
  split_and!.
  - vm_compute. by split_and!.
  - eexists. split; [vm_compute; reflexivity|]. vm_compute. by intros H.
  - vm_compute. reflexivity.
Qed.

(** ** Reading a draft *)

Lemma fold_left_snoc_map {A B} (f : A -> B) (l : list A) (acc : list B) :
  fold_left (fun acc x => acc ++ [f x]) l acc = acc ++ map f l.
Proof.
  revert acc. induction l as [|x l IH]; intros acc; simpl.
  - by rewrite app_nil_r.
  - by rewrite IH, <- app_assoc.
Qed.

Lemma get_video_materials_map self :
  get_video_materials self
  = map (fun mat =>
           {| evm_id := material_key mat;
              evm_path := default "" (vm_path mat);
              evm_duration := seconds (default 0 (vm_duration mat));
              evm_width := default 0 (vm_width mat);
              evm_height := default 0 (vm_height mat) |})
        (videos_of (_content self)).
Proof. unfold get_video_materials. by rewrite fold_left_snoc_map. Qed.

Lemma materials_by_id_fold (l : list ExistingVideoMaterial)
    (d : gmap string ExistingVideoMaterial) (k : string) :
  fold_left (fun d m => <[evm_id m := m]> d) l d !! k
  = match last (filter (fun m => evm_id m = k) l) with
    | Some m => Some m
    | None => d !! k
    end.
Proof.
  revert d. induction l as [|m l IH]; intros d; simpl; [done|].
  rewrite IH, filter_cons. case_decide as E.
  - rewrite last_cons. destruct (last _); [done|].
    subst k. by rewrite lookup_insert_eq.
  - destruct (last _); [done|]. by rewrite lookup_insert_ne.
Qed.

Lemma materials_by_id_None (l : list ExistingVideoMaterial) (k : string) :
  (forall m, m ∈ l -> evm_id m <> k) -> materials_by_id l !! k = None.
Proof.
  intros H. unfold materials_by_id. rewrite materials_by_id_fold.
  destruct (last _) as [m|] eqn:E; [|done].
  apply last_Some_elem_of, list_elem_of_filter in E as [? ?].
  by destruct (H m).
Qed.

Lemma materials_by_id_is_Some (l : list ExistingVideoMaterial) (k : string) m :
  m ∈ l -> evm_id m = k -> is_Some (materials_by_id l !! k).
Proof.
  intros Hm Hk. unfold materials_by_id. rewrite materials_by_id_fold.
  assert (Hin : m ∈ filter (fun m => evm_id m = k) l)
    by by apply list_elem_of_filter.
  destruct (last _) as [m'|] eqn:E; [by eexists|].
  apply last_None in E. rewrite E in Hin. by apply elem_of_nil in Hin.
Qed.

Lemma materials_by_id_Some (l : list ExistingVideoMaterial) (k : string) m :
  materials_by_id l !! k = Some m -> m ∈ l /\ evm_id m = k.
Proof.
  unfold materials_by_id. rewrite materials_by_id_fold.
  destruct (last _) as [m'|] eqn:E; [|done]. intros [= ->].
  by apply last_Some_elem_of, list_elem_of_filter in E as [? ?].
Qed.

Lemma get_video_segments_fold materials_map tracks acc :
  fold_left
    (fun segments track =>
       if bool_decide (track_type track = Some "video") then
         fold_left
           (fun segments seg =>
              segments ++ [video_segment_entry materials_map seg])
           (segments_of track) segments
       else segments)
    tracks acc
  = acc ++ map (video_segment_entry materials_map) (video_segments_of tracks).
Proof.
  revert acc. induction tracks as [|track tracks IH]; intros acc; simpl.
  - by rewrite app_nil_r.
  - rewrite IH. unfold video_segments_of. rewrite filter_cons.
    unfold is_video at 1. case_bool_decide; case_decide; try done.
    cbn [map concat]. by rewrite fold_left_snoc_map, map_app, app_assoc.
Qed.

(** C9.  [get_video_segments] returns one entry per segment of the video
    tracks, in order, each with the id and the material id of its segment;
    the entry of a segment whose material id is the id of no video material
    of the document has the empty source path, and otherwise the path of a
    video material with that id. *)
Theorem get_video_segments_dangling (self : CapCutProject) :
  let segments := video_segments_of (tracks_of (_content self)) in
  let entries := get_video_segments self in
  length entries = length segments /\
  forall i seg entry, segments !! i = Some seg -> entries !! i = Some entry ->
    evs_id entry = default "" (seg_id seg) /\
    evs_material_id entry = default "" (seg_material_id seg) /\
    ((forall mat, mat ∈ videos_of (_content self) ->
        material_key mat <> default "" (seg_material_id seg)) ->
     evs_source_path entry = "") /\
    ((exists mat, mat ∈ videos_of (_content self) /\
        material_key mat = default "" (seg_material_id seg)) ->
     exists mat, mat ∈ videos_of (_content self) /\
        material_key mat = default "" (seg_material_id seg) /\
        evs_source_path entry = default "" (vm_path mat)).
Proof.
  intros segments entries. subst entries. unfold get_video_segments.
  rewrite get_video_segments_fold. fold segments. cbn [app].
  split; [by rewrite length_map|].
  intros i seg entry Hseg Hentry.
  rewrite list_lookup_fmap, Hseg in Hentry. injection Hentry as <-.
  unfold video_segment_entry; cbn [evs_id evs_material_id evs_source_path].
  split_and!; [done..| |].
  - intros Hnone. rewrite materials_by_id_None; [done|].
    intros m Hm. rewrite get_video_materials_map in Hm.
    apply list_elem_of_fmap in Hm as (mat & -> & Hmat). by apply Hnone.
  - intros (mat & Hmat & Hkey).
    destruct (materials_by_id _ !! _) as [m|] eqn:E.
    + apply materials_by_id_Some in E as [Hm Hid].
      rewrite get_video_materials_map in Hm.
      apply list_elem_of_fmap in Hm as (mat' & -> & Hmat').
      by exists mat'.
    + destruct (materials_by_id_is_Some
                  (get_video_materials self)
                  (default "" (seg_material_id seg))
                  {| evm_id := material_key mat;
                     evm_path := default "" (vm_path mat);
                     evm_duration := seconds (default 0 (vm_duration mat));
                     evm_width := default 0 (vm_width mat);
                     evm_height := default 0 (vm_height mat) |})
        as [m Hm]; [|done|congruence].
      rewrite get_video_materials_map.
      apply list_elem_of_fmap. by exists mat.
Qed.

Example get_video_segments_dangling_project :
  map evs_source_path (get_video_segments dangling_project) = [""].
Proof. vm_compute. reflexivity. Qed.

(** ** Applying a cut plan *)

Lemma find_video_track_from_None k tracks :
  (forall track, track ∈ tracks -> ~ is_video track) ->
  find_video_track_from k tracks = None.
Proof.
  revert k. induction tracks as [|t tracks IH]; intros k H; simpl; [done|].
  rewrite bool_decide_eq_false_2.
  - apply IH. intros t' Ht'. apply H. by right.
  - apply H. left.
Qed.



(** C10.  When the content document has no track of type ["video"],
    [apply_cut_plan] returns the project as it was, whatever the cut plan,
    the materials and the path. *)
Theorem apply_cut_plan_no_video_track
    (uuid4 : UuidSource) (n : nat) (self : CapCutProject)
    (cut_plan : CutPlanDict) (video_path : string) :
  (forall track, track ∈ tracks_of (_content self) -> ~ is_video track) ->
  apply_cut_plan uuid4 n self cut_plan video_path = (self, n).
Proof.
  intros Hnone. unfold apply_cut_plan, _find_video_track.
  rewrite find_video_track_from_None by done.
  by destruct (default [] cut_plan).
Qed.

(** A project with only a text track, a cut plan with keep segments and the
    path of a material of the project: nothing changes. *)
Lemma apply_cut_plan_no_video_track_witness :
  demo_keep_segments <> [] /\
  matching_material (_content (demo_project [demo_text_track]))
                    "/media/a.mp4" = Some demo_material /\
  apply_cut_plan demo_uuid4 0 (demo_project [demo_text_track])
                 (Some demo_keep_segments) "/media/a.mp4"
  = (demo_project [demo_text_track], 0%nat).
Proof.
  split_and!; [done|reflexivity|].
  apply apply_cut_plan_no_video_track.
  intros track [->|H]%elem_of_cons; [discriminate|].
  by apply elem_of_nil in H.
Defined.





Lemma Py_max_Z_max a b : Py.max a b = Z.max a b.
Proof. unfold Py.max. destruct (Z.ltb_spec a b); lia. Qed.

Lemma fold_left_max_segments (segs : list Segment) (a : Z) :
  0 <= a ->
  fold_left (fun max_end seg => Py.max max_end (segment_end seg)) segs a
  = Z.max a (foldr Z.max 0 (map segment_end segs)).
Proof.
  revert a. induction segs as [|s segs IH]; intros a Ha; simpl; [lia|].
  rewrite Py_max_Z_max, IH by lia. lia.
Qed.

Lemma foldr_max_nonneg (l : list Z) : 0 <= foldr Z.max 0 l.
Proof. induction l; simpl; lia. Qed.

Lemma foldr_max_app (l1 l2 : list Z) :
  foldr Z.max 0 (l1 ++ l2) = Z.max (foldr Z.max 0 l1) (foldr Z.max 0 l2).
Proof.
  induction l1 as [|x l1 IH]; simpl.
  - pose proof (foldr_max_nonneg l2). lia.
  - rewrite IH. lia.
Qed.

Lemma max_segment_end_fold tracks a :
  0 <= a ->
  fold_left
    (fun max_end track =>
       fold_left (fun max_end seg => Py.max max_end (segment_end seg))
                 (segments_of track) max_end)
    tracks a
  = Z.max a (project_end tracks).
Proof.
  unfold project_end. revert a.
  induction tracks as [|t tracks IH]; intros a Ha; simpl; [lia|].
  rewrite fold_left_max_segments by done.
  rewrite IH by lia. rewrite map_app, foldr_max_app. lia.
Qed.

Lemma max_segment_end_project_end tracks :
  max_segment_end tracks = project_end tracks.
Proof.
  unfold max_segment_end. rewrite max_segment_end_fold by done.
  pose proof (foldr_max_nonneg
                (map segment_end (concat (map segments_of tracks)))).
  unfold project_end. lia.
Qed.






(** ** Copying a project *)

Lemma copytree_Some src dst fs fs' :
  copytree src dst fs = Some fs' ->
  exists d, fs !! src = Some d /\ fs !! dst = None /\ fs' = <[dst := d]> fs.
Proof.
  unfold copytree. destruct (fs !! src) as [d|] eqn:Es; [|done].
  destruct (fs !! dst) eqn:Ed; [done|]. intros [= <-]. by exists d.
Qed.

(** C8.  [create_copy] leaves the source project as it was, in memory and
    on disk, and writes to no directory but the new one.  The copy it
    returns lives in the directory named by the fresh id, next to the
    source; the id is in both of its documents, its [draft_root_path] is
    the path of the new directory, its name is [new_name] in both
    documents, and the new directory holds these two documents.  The call
    succeeds when the source directory exists with its content document
    and the new directory does not exist. *)
Theorem create_copy_leaves_source
    (uuid4 : UuidSource) (n : nat) (current_time : Z)
    (self : CapCutProject) (new_name : string) (fs : FS) :
  let new_id := uuid4 n in
  let new_path := sibling (project_path self) new_id in
  let out := create_copy uuid4 n current_time self new_name fs in
  let self' := out.1.1.1 in
  let copy := out.1.1.2 in
  let fs' := out.1.2 in
  self' = self /\
  fs' !! project_path self = fs !! project_path self /\
  (forall p, p <> new_path -> fs' !! p = fs !! p) /\
  (forall copy_project, copy = Some copy_project ->
     project_path copy_project = new_path /\
     path_name (project_path copy_project) = new_id /\
     c_id (_content copy_project) = Some new_id /\
     m_draft_id (_meta copy_project) = Some new_id /\
     m_draft_root_path (_meta copy_project) = Some (path_str new_path) /\
     c_name (_content copy_project) = Some new_name /\
     m_draft_name (_meta copy_project) = Some new_name /\
     exists d, fs !! project_path self = Some d /\
       fs' !! new_path
       = Some {| draft_info := Some (_content copy_project);
                 draft_meta_info := Some (_meta copy_project);
                 dir_other := dir_other d |}) /\
  (forall d content,
     fs !! project_path self = Some d -> draft_info d = Some content ->
     fs !! new_path = None ->
     is_Some copy).
Proof.
  intros new_id new_path out self' copy fs'.
  subst self' copy fs' out. unfold create_copy. fold new_id new_path.
  destruct (copytree (project_path self) new_path fs) as [fs1|] eqn:Ecopy.
  - apply copytree_Some in Ecopy as (d & Hsrc & Hdst & ->).
    assert (Hne : project_path self <> new_path) by congruence.
    unfold CapCutProject_init. rewrite lookup_insert_eq.
    destruct (draft_info d) as [content|] eqn:Einfo; cbn [fst snd].
    + unfold save, set_project_name.
      cbn [fst snd project_path _content _meta].
      split_and!.
      * done.
      * by rewrite lookup_alter_ne, lookup_insert_ne by done.
      * intros p Hp. by rewrite lookup_alter_ne, lookup_insert_ne by done.
      * intros copy_project [= <-]. cbn.
        split_and!; try done.
        exists d. split; [done|].
        by rewrite lookup_alter_eq, lookup_insert_eq.
      * intros. by eexists.
    + split_and!.
      * done.
      * by rewrite lookup_insert_ne by done.
      * intros p Hp. by rewrite lookup_insert_ne by done.
      * done.
      * intros d' content Hd'. rewrite Hsrc in Hd'. injection Hd' as <-.
        congruence.
  - cbn [fst snd]. split_and!; try done.
    intros d content Hsrc Hinfo Hdst.
    unfold copytree in Ecopy. by rewrite Hsrc, Hdst in Ecopy.
Qed.

(** The demo project copied under the name ["copy"]: the call succeeds. *)
Lemma create_copy_leaves_source_witness :
  let out := create_copy demo_uuid4 0 1700000000 demo_source "copy" demo_fs in
  demo_fs !! project_path demo_source
  = Some {| draft_info := Some (_content demo_source);
            draft_meta_info := None;
            dir_other := [("a.mp4", "bytes")] |} /\
  demo_fs !! sibling (project_path demo_source) (demo_uuid4 0%nat) = None /\
  is_Some out.1.1.2 /\
  out.1.2 !! project_path demo_source = demo_fs !! project_path demo_source.
Proof.
  intros out.
  pose proof (create_copy_leaves_source demo_uuid4 0%nat 1700000000 demo_source
                "copy" demo_fs) as (_ & Hdisk & _ & _ & Hok).
  assert (H1 : demo_fs !! project_path demo_source
               = Some {| draft_info := Some (_content demo_source);
                         draft_meta_info := None;
                         dir_other := [("a.mp4", "bytes")] |})
    by (vm_compute; reflexivity).
  assert (H2 : demo_fs !! sibling (project_path demo_source) (demo_uuid4 0%nat)
               = None)
    by (vm_compute; reflexivity).
  split_and!; [exact H1 | exact H2 | | exact Hdisk].
  exact (Hok _ _ H1 eq_refl H2).
Defined.

(** * Further properties *)

(** ** Transcript segmenter *)




Lemma split_at_pauses_length thr pending words :
  length (split_at_pauses thr pending words)
  = match words with
    | [] => match pending with [] => O | _ => 1%nat end
    | _ => S (long_pauses thr words)
    end.
Proof.
  revert pending. induction words as [|word rest IH]; intros pending; [by destruct pending|].
  cbn [split_at_pauses long_pauses]. destruct rest as [|next_word rest'];
    [done|].
  destruct (Qle_bool _ _).
  - cbn [length]. by rewrite IH.
  - by rewrite IH.
Qed.

Lemma paragraphs_from_defaults pid groups p :
  p ∈ paragraphs_from pid groups ->
  p_action p = keep /\ p_reason p = "" /\ p_group_id p = None.
Proof.
  revert pid. induction groups as [|g groups IH]; intros pid; simpl.
  - by intros ?%elem_of_nil.
  - destruct g as [|first l]; [apply IH|].
    intros [->|H]%elem_of_cons; [done|]. by eapply IH.
Qed.

Lemma find_paragraphs_count_aux tr thr :
  length (find_paragraphs tr thr)
  = match get_all_words tr with
    | [] => O
    | _ => S (long_pauses thr (get_all_words tr))
    end /\
  forall p, p ∈ find_paragraphs tr thr ->
    p_action p = keep /\ p_reason p = "" /\ p_group_id p = None.
Proof.
  rewrite find_paragraphs_closed_form. split.
  - rewrite paragraphs_from_length by apply split_at_pauses_nonempty.
    by rewrite split_at_pauses_length.
  - apply paragraphs_from_defaults.
Qed.


(** ** Cut-plan builder and the analysis pipeline *)

Lemma all_pairs_app {A} (R : A -> A -> Prop) (l1 l2 : list A) :
  all_pairs R (l1 ++ l2) <->
  all_pairs R l1 /\ all_pairs R l2 /\
  forall x y, x ∈ l1 -> y ∈ l2 -> R x y.
Proof.
  induction l1 as [|a l1 IH]; simpl.
  - split; [intros H; split_and!; [done|done|]|tauto].
    intros x y Hx. by apply elem_of_nil in Hx.
  - rewrite IH, Forall_app, !Forall_forall. split.
    + intros [[H1 H2] (H3 & H4 & H5)]. split_and!; [done..|].
      intros x y [->|Hx]%elem_of_cons Hy; [by apply H2|by apply H5].
    + intros [[H1 H2] [H3 H4]]. split_and!; [done| |done..|].
      * intros y Hy. apply H4; [left|done].
      * intros x y Hx Hy. apply H4; [by right|done].
Qed.

Lemma sorted_ascending {A} (key : A -> Q) (l : list A) :
  all_pairs (key_le key) l -> sorted key l = l.
Proof.
  induction l as [|x l IH]; simpl; [done|]. intros [Hx Hl].
  rewrite IH by done. destruct l as [|y l']; [done|]. simpl.
  apply Forall_cons in Hx as [Hxy _].
  by rewrite (proj2 (Qlt_bool_false (key y) (key x)) Hxy).
Qed.

Lemma filter_length_Permutation {A} (f : A -> bool) (l l' : list A) :
  l ≡ₚ l' -> length (List.filter f l) = length (List.filter f l').
Proof.
  induction 1 as [|x l l' _ IH|x y l|l l' l'' _ IH1 _ IH2]; simpl.
  - done.
  - destruct (f x); simpl; by rewrite IH.
  - by destruct (f x), (f y).
  - by rewrite IH1.
Qed.

(** The paragraphs of groups that partition time-ordered words are in time
    order. *)
Lemma paragraphs_from_ordered pid groups :
  Forall (fun g => g <> []) groups ->
  Forall (fun w => (w_start w <= w_end w)%Q) (concat groups) ->
  all_pairs (fun a b => (w_end a <= w_start b)%Q) (concat groups) ->
  Forall (fun p => (p_start p <= p_end p)%Q) (paragraphs_from pid groups) /\
  all_pairs (fun p q => (p_end p <= p_start q)%Q) (paragraphs_from pid groups) /\
  forall p, p ∈ paragraphs_from pid groups ->
    exists w, w ∈ concat groups /\ p_start p = w_start w.
Proof.
  intros Hne. revert pid. induction Hne as [|g groups Hg _ IH]; intros pid.
  - intros _ _. split_and!; [constructor|done|].
    intros p Hp. by apply elem_of_nil in Hp.
  - cbn [concat]. intros Hwf Hseq.
    apply Forall_app in Hwf as [Hwfg Hwfr].
    apply all_pairs_app in Hseq as (Hseqg & Hseqr & Hcross).
    destruct (IH (pid + 1) Hwfr Hseqr) as (IH1 & IH2 & IH3).
    destruct g as [|first l]; [done|]. cbn [paragraphs_from].
    assert (Hlast : List.last (first :: l) first ∈ first :: l).
    { pose proof (last_List_last l first first) as H.
      by apply last_Some_elem_of in H. }
    split_and!.
    + constructor; [|done]. cbn [close_paragraph p_start p_end].
      destruct Hseqg as [Hf _]. apply Forall_cons in Hwfg as [Hwf1 Hwfl].
      apply elem_of_cons in Hlast as [->|Hin]; [done|].
      rewrite Forall_forall in Hf, Hwfl.
      specialize (Hf _ Hin). specialize (Hwfl _ Hin). lra.
    + split; [|done]. apply Forall_forall. intros q Hq.
      destruct (IH3 q Hq) as (w & Hw & ->). cbn [close_paragraph p_end].
      by apply Hcross.
    + intros p [->|Hp]%elem_of_cons.
      * exists first. split; [|done]. apply elem_of_app. left. left.
      * destruct (IH3 p Hp) as (w & Hw & Hpw). exists w.
        split; [|done]. apply elem_of_app. by right.
Qed.

Lemma update_paragraph_times remove_ids group_map p :
  p_start (update_paragraph remove_ids group_map p) = p_start p /\
  p_end (update_paragraph remove_ids group_map p) = p_end p.
Proof.
  unfold update_paragraph. case_bool_decide; [done|]. by case_bool_decide.
Qed.

Lemma analyze_content_paragraphs key client tr thr dd :
  exists f : Paragraph -> Paragraph,
    (forall p, p_start (f p) = p_start p /\ p_end (f p) = p_end p) /\
    out_paragraphs (analyze_content key client tr thr dd)
    = map f (find_paragraphs tr thr).
Proof.
  unfold analyze_content; cbn [out_paragraphs].
  destruct (dd && _); [destruct key|].
  - exists id. split; [done|]. by rewrite map_id.
  - eexists. split; [|apply detect_duplicates_map].
    intros p. apply update_paragraph_times.
  - exists id. split; [done|]. by rewrite map_id.
Qed.

Lemma find_paragraphs_ordered tr thr :
  words_sequential (get_all_words tr) ->
  Forall (fun p => (p_start p <= p_end p)%Q) (find_paragraphs tr thr) /\
  all_pairs (fun p q => (p_end p <= p_start q)%Q) (find_paragraphs tr thr).
Proof.
  intros Hseq. rewrite find_paragraphs_closed_form.
  pose proof (split_at_pauses_concat thr [] (get_all_words tr)) as Hc.
  simpl in Hc.
  destruct (paragraphs_from_ordered 0
              (split_at_pauses thr [] (get_all_words tr)))
    as (H1 & H2 & _).
  - apply split_at_pauses_nonempty.
  - rewrite Hc. apply Hseq.
  - rewrite Hc. by apply words_sequential_all_pairs.
  - done.
Qed.

(** X3.  When the words of the transcription are in time order and do not
    overlap, the keep segments of the cut plan of [analyze_content] follow
    one another: each starts no later than it ends, and ends no later than
    every later one starts, with or without duplicate detection. *)
Theorem analyze_content_keep_segments_ordered
    (openai_api_key : string) (client : LLMClient)
    (transcription : Transcription) (silence_threshold_sec : Q)
    (duplicate_detection : bool) :
  words_sequential (get_all_words transcription) ->
  let plan :=
    out_cut_plan (analyze_content openai_api_key client transcription
                    silence_threshold_sec duplicate_detection) in
  (forall s, s ∈ keep_segments plan -> (cs_start s <= cs_end s)%Q) /\
  (forall i j a b, (i < j)%nat ->
     keep_segments plan !! i = Some a -> keep_segments plan !! j = Some b ->
     (cs_end a <= cs_start b)%Q).
Proof.
  intros Hseq plan.
  destruct (analyze_content_paragraphs openai_api_key client transcription
              silence_threshold_sec duplicate_detection) as (f & Hf & Hps).
  destruct (find_paragraphs_ordered transcription silence_threshold_sec Hseq)
    as [Hwf Hord].
  set (ps := out_paragraphs (analyze_content openai_api_key client
                transcription silence_threshold_sec duplicate_detection))
    in *.
  assert (Hwf' : Forall (fun p => (p_start p <= p_end p)%Q) ps).
  { rewrite Hps. apply Forall_fmap. eapply Forall_impl; [done|].
    intros p Hp. simpl. destruct (Hf p) as [-> ->]. done. }
  assert (Hord' : all_pairs (fun p q => (p_end p <= p_start q)%Q) ps).
  { rewrite Hps. eapply all_pairs_map; [|done].
    intros p q Hpq. destruct (Hf p) as [_ ->], (Hf q) as [-> _]. done. }
  assert (Hasc : all_pairs (key_le p_start) ps).
  { clear -Hwf' Hord'. induction ps as [|p ps IH]; [done|].
    destruct Hord' as [Hp Hps]. apply Forall_cons in Hwf' as [Hwp Hwps].
    split; [|by apply IH].
    eapply Forall_impl; [done|]. intros q Hq. unfold key_le. simpl in *. lra. }
  assert (Hkeep : keep_segments plan
                  = map (keep_segment_of transcription)
                        (List.filter is_keep ps)).
  { subst plan.
    change (keep_segments
              (build_cut_plan ps transcription silence_threshold_sec)
            = map (keep_segment_of transcription) (List.filter is_keep ps)).
    rewrite build_cut_plan_keep_segments.
    by rewrite (sorted_ascending p_start ps Hasc). }
  rewrite Hkeep. split.
  - intros s Hs. apply list_elem_of_fmap in Hs as (p & -> & Hp).
    apply list_elem_of_In, List.filter_In in Hp as [Hp _].
    rewrite Forall_forall in Hwf'. by apply Hwf', list_elem_of_In.
  - assert (H : all_pairs (fun a b => (cs_end a <= cs_start b)%Q)
                  (map (keep_segment_of transcription)
                       (List.filter is_keep ps))).
    { apply (all_pairs_map (fun p q => (p_end p <= p_start q)%Q));
        [|by apply all_pairs_filter].
      intros p q Hpq. exact Hpq. }
    intros i j a b. by apply (proj1 (all_pairs_lookup _ _) H).
Qed.

Lemma analyze_content_keep_segments_ordered_witness :
  words_sequential (get_all_words example_transcription) /\
  (cs_end {| cs_start := 0; cs_end := 1.0; cs_start_word := "hi";
             cs_end_word := "there"; cs_reason := None |}
   <= cs_start {| cs_start := 5.0; cs_end := 5.4; cs_start_word := "world";
                  cs_end_word := "world"; cs_reason := None |})%Q.
Proof.
  assert (H : words_sequential (get_all_words example_transcription)).
  { split; repeat constructor; simpl; lra. }
  split; [exact H|].
  apply (proj2 (analyze_content_keep_segments_ordered
                  "" (fun _ => []) example_transcription 3.0 true H)
               0%nat 1%nat); [lia|reflexivity|reflexivity].
Defined.

Lemma update_paragraph_empty p : update_paragraph ∅ ∅ p = p.
Proof.
  unfold update_paragraph.
  rewrite bool_decide_eq_false_2 by apply not_elem_of_empty.
  rewrite bool_decide_eq_false_2; [done|].
  rewrite dom_empty_L. apply not_elem_of_empty.
Qed.

(** X4.  When the language model returns no group (also its answer after a
    failure), [detect_duplicates_in_paragraphs] returns the paragraphs as
    they were. *)
Theorem detect_duplicates_no_groups
    (client : LLMClient) (paragraphs : list Paragraph) :
  client (map (fun p => (p_id p, p_text p)) paragraphs) = [] ->
  detect_duplicates_in_paragraphs client paragraphs = paragraphs.
Proof.
  intros Hnone. rewrite detect_duplicates_map, Hnone.
  cbn [collect_groups fold_left fst snd].
  rewrite <- (map_id paragraphs) at 2. apply map_ext.
  intros p. apply update_paragraph_empty.
Qed.

Lemma detect_duplicates_no_groups_witness :
  (fun _ : list (Z * string) => @nil DuplicateGroup)
    (map (fun p => (p_id p, p_text p)) overlapping_paragraphs) = [] /\
  detect_duplicates_in_paragraphs (fun _ => []) overlapping_paragraphs
  = overlapping_paragraphs.
Proof.
  split; [reflexivity|].
  exact (detect_duplicates_no_groups (fun _ => []) overlapping_paragraphs
           eq_refl).
Defined.

Lemma bcp_counts_body tr thr (st : bcp_state) (p : Paragraph) :
  let st' := build_cut_plan_body tr thr st p in
  bcp_duplicates st'
  = bcp_duplicates st + (if is_keep p then 0 else 1) /\
  bcp_silences st <= bcp_silences st' <= bcp_silences st + 1 /\
  Z.of_nat (length (bcp_remove st'))
  = Z.of_nat (length (bcp_remove st))
    + (bcp_duplicates st' - bcp_duplicates st)
    + (bcp_silences st' - bcp_silences st).
Proof.
  destruct st as [[[[ks rs] prev_end] dup] sil].
  unfold build_cut_plan_body, is_keep.
  destruct (Qle_bool _ _); destruct (p_action p);
    cbn [bcp_duplicates bcp_silences bcp_remove];
    rewrite ?length_app; cbn [length]; lia.
Qed.

Lemma bcp_counts_fold tr thr (l : list Paragraph) (st : bcp_state) :
  let st' := fold_left (build_cut_plan_body tr thr) l st in
  bcp_duplicates st'
  = bcp_duplicates st
    + Z.of_nat (length (List.filter (fun p => negb (is_keep p)) l)) /\
  bcp_silences st <= bcp_silences st'
                  <= bcp_silences st + Z.of_nat (length l) /\
  Z.of_nat (length (bcp_remove st'))
  = Z.of_nat (length (bcp_remove st))
    + (bcp_duplicates st' - bcp_duplicates st)
    + (bcp_silences st' - bcp_silences st).
Proof.
  revert st. induction l as [|p l IH]; intros st; [simpl; lia|].
  cbn [fold_left List.filter].
  destruct (IH (build_cut_plan_body tr thr st p)) as (IH1 & IH2 & IH3).
  destruct (bcp_counts_body tr thr st p) as (B1 & B2 & B3).
  cbn zeta in *.
  set (st1 := build_cut_plan_body tr thr st p) in *.
  set (st2 := fold_left _ l st1) in *.
  destruct (is_keep p); cbn [negb length] in *; lia.
Qed.

(** X5.  In the cut plan of [build_cut_plan] there is one keep segment per
    paragraph with the action [keep], [duplicates_removed] counts the other
    paragraphs, [silences_removed] is between [0] and the number of
    paragraphs, and there are [duplicates_removed + silences_removed]
    remove segments. *)
Theorem build_cut_plan_counts
    (paragraphs : list Paragraph) (transcription : Transcription)
    (silence_threshold : Q) :
  let plan := build_cut_plan paragraphs transcription silence_threshold in
  length (keep_segments plan) = length (List.filter is_keep paragraphs) /\
  duplicates_removed (stats plan)
  = Z.of_nat (length (List.filter (fun p => negb (is_keep p)) paragraphs)) /\
  0 <= silences_removed (stats plan) <= Z.of_nat (length paragraphs) /\
  Z.of_nat (length (remove_segments plan))
  = duplicates_removed (stats plan) + silences_removed (stats plan).
Proof.
  intros plan. subst plan. split.
  - rewrite build_cut_plan_keep_segments, length_map.
    apply filter_length_Permutation, sorted_Permutation.
  - pose proof (bcp_counts_fold transcription silence_threshold
                  (sorted p_start paragraphs) ([], [], 0%Q, 0, 0))
      as (H1 & H2 & H3).
    unfold build_cut_plan.
    destruct (fold_left _ _ _) as [[[[ks rs] prev_end] dup] sil].
    cbn [bcp_duplicates bcp_silences bcp_remove length stats
         duplicates_removed silences_removed remove_segments] in *.
    rewrite (filter_length_Permutation _ _ _
               (sorted_Permutation p_start paragraphs)) in H1.
    rewrite (Permutation_length (sorted_Permutation p_start paragraphs))
      in H2.
    lia.
Qed.




Lemma filter_not_keep_nil (l : list Paragraph) :
  (forall p, p ∈ l -> p_action p = keep) ->
  List.filter (fun p => negb (is_keep p)) l = [].
Proof.
  induction l as [|p l IH]; intros Hk; [done|].
  assert (Hp : p_action p = keep) by (apply Hk; left).
  simpl. unfold is_keep at 1. rewrite Hp. simpl. apply IH.
  intros q Hq. apply Hk. by right.
Qed.

(** X7.  In the summary of [analyze_content] the paragraphs kept are as
    many as the keep segments of the cut plan, and the paragraphs kept and
    the duplicates removed add up to all the paragraphs; without duplicate
    detection, or without an API key, the paragraphs are those of
    [find_paragraphs], all are kept and no duplicate is removed. *)
Theorem analyze_content_summary
    (openai_api_key : string) (client : LLMClient)
    (transcription : Transcription) (silence_threshold_sec : Q)
    (duplicate_detection : bool) :
  let out := analyze_content openai_api_key client transcription
               silence_threshold_sec duplicate_detection in
  let summary := out_summary out in
  sum_paragraphs_kept summary
  = Z.of_nat (length (keep_segments (out_cut_plan out))) /\
  sum_paragraphs_total summary
  = sum_paragraphs_kept summary + sum_duplicates_removed summary /\
  (duplicate_detection = false \/ openai_api_key = "" ->
   out_paragraphs out = find_paragraphs transcription silence_threshold_sec /\
   sum_duplicates_removed summary = 0 /\
   sum_paragraphs_kept summary = sum_paragraphs_total summary).
Proof.
  intros out summary.
  set (ps := out_paragraphs out).
  assert (Hplan : out_cut_plan out
                  = build_cut_plan ps transcription silence_threshold_sec)
    by done.
  assert (Hkept : sum_paragraphs_kept summary
                  = Z.of_nat (length (List.filter is_keep ps))) by done.
  assert (Htotal : sum_paragraphs_total summary = Z.of_nat (length ps))
    by done.
  assert (Hdup : sum_duplicates_removed summary
                 = duplicates_removed (stats (out_cut_plan out))) by done.
  assert (Hsplit : forall l : list Paragraph,
            length l = (length (List.filter is_keep l)
                        + length (List.filter
                                    (fun p => negb (is_keep p)) l))%nat).
  { induction l as [|p l IH]; [done|]. simpl.
    destruct (is_keep p); simpl; lia. }
  rewrite Hkept, Htotal, Hdup, Hplan.
  rewrite build_cut_plan_keep_segments, length_map.
  rewrite (filter_length_Permutation _ _ _ (sorted_Permutation p_start ps)).
  pose proof (bcp_counts_fold transcription silence_threshold_sec
                (sorted p_start ps) ([], [], 0%Q, 0, 0)) as (H1 & _ & _).
  assert (Hd : duplicates_removed
                 (stats (build_cut_plan ps transcription
                           silence_threshold_sec))
               = Z.of_nat (length (List.filter
                                     (fun p => negb (is_keep p)) ps))).
  { unfold build_cut_plan.
    destruct (fold_left _ _ _) as [[[[ks rs] prev_end] dup] sil].
    cbn [bcp_duplicates stats duplicates_removed] in *.
    rewrite (filter_length_Permutation _ _ _
               (sorted_Permutation p_start ps)) in H1. lia. }
  rewrite Hd. split; [done|]. split; [rewrite (Hsplit ps); lia|].
  intros Hoff.
  assert (Hps : ps = find_paragraphs transcription silence_threshold_sec).
  { subst ps out. unfold analyze_content; cbn [out_paragraphs].
    destruct Hoff as [-> | ->]; [done|]. by destruct (_ && _). }
  assert (Hall : List.filter (fun p => negb (is_keep p)) ps = []).
  { rewrite Hps. apply filter_not_keep_nil. intros p Hp.
    by apply (proj2 (find_paragraphs_count_aux transcription
                       silence_threshold_sec)). }
  rewrite Hall in *. split_and!; [done|done|]. rewrite (Hsplit ps), Hall.
  simpl. lia.
Qed.

(** ** Formatted durations and timestamps *)

Lemma Py_int_inject_Z (z : Z) : Py.int (inject_Z z) = z.
Proof. unfold Py.int, inject_Z. simpl. apply Z.quot_1_r. Qed.

Lemma Py_int_nonneg (x : Q) : (0 <= x)%Q -> Py.int x = Qfloor x.
Proof.
  destruct x as [n d]. unfold Qle, Py.int, Qfloor. simpl. intros H.
  apply Z.quot_div_nonneg; lia.
Qed.

Lemma Qfloor_div_pos (x : Q) (k : positive) :
  Qfloor (x / inject_Z (Zpos k)) = Qfloor x / Zpos k.
Proof.
  destruct x as [n d]. unfold Qdiv, Qinv, Qmult, Qfloor, inject_Z. simpl.
  rewrite Z.mul_1_r, Pos2Z.inj_mul. by rewrite Z.div_div by lia.
Qed.

Lemma Qfloor_sub_Z (x : Q) (z : Z) :
  Qfloor (x - inject_Z z) = Qfloor x - z.
Proof.
  destruct x as [n d]. unfold Qminus, Qplus, Qopp, Qfloor, inject_Z. simpl.
  rewrite Z.mul_1_r, Pos.mul_1_r.
  replace (n + - z * Z.pos d) with (n + (- z) * Z.pos d) by lia.
  rewrite Z.div_add by lia. lia.
Qed.

(** [x % k] is [x - k * floor(x / k)], between [0] and [k]. *)
Lemma modulo_pos (x : Q) (k : positive) :
  (PyNum.modulo x (inject_Z (Zpos k))
   == x - inject_Z (Zpos k * (Qfloor x / Zpos k)))%Q /\
  (0 <= PyNum.modulo x (inject_Z (Zpos k)))%Q /\
  (PyNum.modulo x (inject_Z (Zpos k)) < inject_Z (Zpos k))%Q.
Proof.
  unfold PyNum.modulo. rewrite Qfloor_div_pos.
  assert (E : (x - inject_Z (Z.pos k) * inject_Z (Qfloor x / Z.pos k)
               == x - inject_Z (Z.pos k * (Qfloor x / Z.pos k)))%Q).
  { rewrite inject_Z_mult. reflexivity. }
  split; [exact E|]. rewrite E.
  pose proof (Qfloor_le x) as Hlo. pose proof (Qlt_floor x) as Hhi.
  pose proof (Z.mod_pos_bound (Qfloor x) (Z.pos k) ltac:(lia)) as Hm.
  pose proof (Z.div_mod (Qfloor x) (Z.pos k) ltac:(lia)) as Hd.
  set (q := Qfloor x / Z.pos k) in *. set (r := Qfloor x mod Z.pos k) in *.
  assert (H1 : (inject_Z (Z.pos k * q) <= inject_Z (Qfloor x))%Q)
    by (rewrite <- Zle_Qle; lia).
  assert (H2 : (inject_Z (Qfloor x + 1) <= inject_Z (Z.pos k * q + Z.pos k))%Q)
    by (rewrite <- Zle_Qle; lia).
  rewrite !inject_Z_plus in H2. rewrite inject_Z_plus in Hhi.
  split; lra.
Qed.

(** The minutes and seconds of the [*_formatted] properties. *)
Lemma minutes_seconds (d : Q) :
  let minutes := Py.int (PyNum.floordiv d 60) in
  let seconds := Py.int (PyNum.modulo d 60) in
  0 <= seconds <= 59 /\ minutes * 60 + seconds = Qfloor d.
Proof.
  intros minutes seconds. subst minutes seconds.
  unfold PyNum.floordiv. rewrite Py_int_inject_Z.
  destruct (modulo_pos d 60) as (E & Hlo & Hhi).
  change (inject_Z (Z.pos 60)) with 60%Q in *.
  rewrite Py_int_nonneg by done.
  rewrite (Qfloor_comp _ _ E), Qfloor_sub_Z.
  change (d / 60)%Q with (d / inject_Z (Z.pos 60))%Q.
  rewrite Qfloor_div_pos.
  pose proof (Z.mod_pos_bound (Qfloor d) 60 ltac:(lia)).
  pose proof (Z.div_mod (Qfloor d) 60 ltac:(lia)). lia.
Qed.

Lemma minutes_seconds_closed (d : Q) :
  Py.int (PyNum.floordiv d 60) = Qfloor d / 60 /\
  Py.int (PyNum.modulo d 60) = Qfloor d mod 60.
Proof.
  pose proof (minutes_seconds d) as H. cbv zeta in H.
  pose proof (Z.mod_pos_bound (Qfloor d) 60 ltac:(lia)).
  pose proof (Z.div_mod (Qfloor d) 60 ltac:(lia)). lia.
Qed.

(** X8.  For durations that are not negative, the formatted durations of
    [CutStats] are [minutes:seconds] of the duration rounded down to a whole
    second: the whole minutes without padding, then the remaining seconds,
    0 to 59, on two digits. *)
Theorem cut_stats_formatted (self : CutStats) :
  (0 <= removed_duration self)%Q ->
  (0 <= original_duration self)%Q ->
  (0 <= kept_duration self)%Q ->
  time_saved_formatted self
  = PyNum.str (Qfloor (removed_duration self) / 60) +:+ ":"
    +:+ PyNum.format_0d 2 (Qfloor (removed_duration self) mod 60) /\
  original_duration_formatted self
  = PyNum.str (Qfloor (original_duration self) / 60) +:+ ":"
    +:+ PyNum.format_0d 2 (Qfloor (original_duration self) mod 60) /\
  kept_duration_formatted self
  = PyNum.str (Qfloor (kept_duration self) / 60) +:+ ":"
    +:+ PyNum.format_0d 2 (Qfloor (kept_duration self) mod 60).
Proof.
  intros _ _ _.
  unfold time_saved_formatted, original_duration_formatted,
    kept_duration_formatted. cbv zeta.
  destruct (minutes_seconds_closed (removed_duration self)) as [-> ->].
  destruct (minutes_seconds_closed (original_duration self)) as [-> ->].
  by destruct (minutes_seconds_closed (kept_duration self)) as [-> ->].
Qed.

Lemma cut_stats_formatted_witness :
  let self := {| original_duration := 125.5; kept_duration := 65;
                 removed_duration := 60.5; duplicates_removed := 1;
                 silences_removed := 0 |} in
  time_saved_formatted self = "1:00" /\
  original_duration_formatted self = "2:05" /\
  kept_duration_formatted self = "1:05".
Proof.
  intros self.
  assert (H1 : (0 <= removed_duration self)%Q) by (unfold Qle; simpl; lia).
  assert (H2 : (0 <= original_duration self)%Q) by (unfold Qle; simpl; lia).
  assert (H3 : (0 <= kept_duration self)%Q) by (unfold Qle; simpl; lia).
  exact (cut_stats_formatted self H1 H2 H3).
Defined.

Lemma srt_fields (x : Q) :
  let hours := Py.int (PyNum.floordiv x 3600) in
  let minutes := Py.int (PyNum.floordiv (PyNum.modulo x 3600) 60) in
  let secs := Py.int (PyNum.modulo x 60) in
  let millis := Py.int (PyNum.modulo x 1 * 1000)%Q in
  hours = Qfloor x / 3600 /\
  0 <= minutes <= 59 /\ 0 <= secs <= 59 /\ 0 <= millis <= 999 /\
  hours * 3600 + minutes * 60 + secs = Qfloor x.
Proof.
  intros hours minutes secs millis. subst hours minutes secs millis.
  unfold PyNum.floordiv. rewrite !Py_int_inject_Z.
  destruct (modulo_pos x 3600) as (E1 & _ & _).
  destruct (modulo_pos x 60) as (E2 & Hlo2 & _).
  destruct (modulo_pos x 1) as (E3 & Hlo3 & Hhi3).
  change (inject_Z (Z.pos 3600)) with 3600%Q in *.
  change (inject_Z (Z.pos 60)) with 60%Q in *.
  change (inject_Z (Z.pos 1)) with 1%Q in *.
  rewrite (Py_int_nonneg (PyNum.modulo x 60)) by done.
  rewrite (Py_int_nonneg (PyNum.modulo x 1 * 1000)) by lra.
  rewrite (Qfloor_comp _ _ E2), Qfloor_sub_Z.
  change (x / 3600)%Q with (x / inject_Z (Z.pos 3600))%Q.
  change (PyNum.modulo x 3600 / 60)%Q
    with (PyNum.modulo x 3600 / inject_Z (Z.pos 60))%Q.
  rewrite !Qfloor_div_pos, (Qfloor_comp _ _ E1), Qfloor_sub_Z.
  assert (Hms : 0 <= Qfloor (PyNum.modulo x 1 * 1000) <= 999).
  { split.
    - rewrite <- (Qfloor_Z 0). apply Qfloor_resp_le.
      change (inject_Z 0) with 0%Q. lra.
    - assert (Qfloor (PyNum.modulo x 1 * 1000) < 1000); [|lia].
      rewrite Zlt_Qlt.
      eapply Qle_lt_trans; [apply Qfloor_le|].
      change (inject_Z 1000) with 1000%Q. lra. }
  pose proof (Z.mod_pos_bound (Qfloor x) 3600 ltac:(lia)).
  pose proof (Z.div_mod (Qfloor x) 3600 ltac:(lia)).
  pose proof (Z.mod_pos_bound (Qfloor x) 60 ltac:(lia)).
  pose proof (Z.div_mod (Qfloor x) 60 ltac:(lia)).
  set (N := Qfloor x) in *. set (hh := N / 3600) in *.
  pose proof (Z.mod_pos_bound (N - 3600 * hh) 60 ltac:(lia)).
  pose proof (Z.div_mod (N - 3600 * hh) 60 ltac:(lia)).
  assert (Hq : (N - 3600 * hh) / 60 = N / 60 - 60 * hh).
  { replace (N - 3600 * hh) with (N + (- (60 * hh)) * 60) by lia.
    rewrite Z.div_add by lia. lia. }
  split_and!; try lia.
Qed.

(** X9.  For a time that is not negative, [format_srt_timestamp] prints
    [HH:MM:SS,mmm] of the time rounded down to a whole second: the whole
    hours, the minutes and the seconds within the hour and the minute, each
    on two digits, and a number of milliseconds between 0 and 999 on three
    digits. *)
Theorem format_srt_timestamp_fields (seconds : Q) :
  (0 <= seconds)%Q ->
  exists millis,
    0 <= millis <= 999 /\
    format_srt_timestamp seconds
    = PyNum.format_0d 2 (Qfloor seconds / 3600) +:+ ":"
      +:+ PyNum.format_0d 2 (Qfloor seconds / 60 mod 60) +:+ ":"
      +:+ PyNum.format_0d 2 (Qfloor seconds mod 60) +:+ ","
      +:+ PyNum.format_0d 3 millis.
Proof.
  intros _.
  destruct (srt_fields seconds) as (Hh & Hm & Hs & Hms & Hsum).
  unfold format_srt_timestamp. cbv zeta in *.
  set (hours := Py.int (PyNum.floordiv seconds 3600)) in *.
  set (minutes := Py.int (PyNum.floordiv (PyNum.modulo seconds 3600) 60)) in *.
  set (secs := Py.int (PyNum.modulo seconds 60)) in *.
  set (millis := Py.int (PyNum.modulo seconds 1 * 1000)%Q) in *.
  clearbody hours minutes secs millis.
  exists millis. split; [done|].
  set (N := Qfloor seconds) in *.
  pose proof (Z.mod_pos_bound N 60 ltac:(lia)).
  pose proof (Z.div_mod N 60 ltac:(lia)).
  pose proof (Z.mod_pos_bound (N / 60) 60 ltac:(lia)).
  pose proof (Z.div_mod (N / 60) 60 ltac:(lia)).
  assert (Hs' : secs = N mod 60) by lia.
  assert (Hm' : minutes = N / 60 mod 60) by lia.
  by rewrite Hh, Hs', Hm'.
Qed.

Lemma format_srt_timestamp_fields_witness :
  exists millis,
    0 <= millis <= 999 /\
    format_srt_timestamp 3661.5
    = "01" +:+ ":" +:+ "01" +:+ ":" +:+ "01" +:+ ","
      +:+ PyNum.format_0d 3 millis.
Proof.
  assert (H : (0 <= 3661.5)%Q) by (unfold Qle; simpl; lia).
  exact (format_srt_timestamp_fields 3661.5 H).
Defined.

Lemma string_length_app (a b : string) :
  String.length (a +:+ b) = (String.length a + String.length b)%nat.
Proof. induction a as [|c a IH]; simpl; [done|]. by rewrite IH. Qed.

Lemma format_0d_length (width : nat) (bound : nat) (z : Z) :
  forallb (fun n => Nat.eqb (String.length (PyNum.format_0d width (Z.of_nat n)))
                            width)
          (seq 0 bound) = true ->
  0 <= z < Z.of_nat bound ->
  String.length (PyNum.format_0d width z) = width.
Proof.
  intros Hall Hz. rewrite forallb_forall in Hall.
  specialize (Hall (Z.to_nat z)).
  rewrite Z2Nat.id in Hall by lia.
  apply Nat.eqb_eq, Hall, in_seq. lia.
Qed.

(** X10.  For a time from 0 up to, and not including, 100 hours the
    timestamp of [format_srt_timestamp] has exactly twelve characters. *)
Theorem format_srt_timestamp_length (seconds : Q) :
  (0 <= seconds)%Q -> (seconds < 360000)%Q ->
  String.length (format_srt_timestamp seconds) = 12%nat.
Proof.
  intros Hlo Hhi.
  destruct (srt_fields seconds) as (Hh & Hm & Hs & Hms & Hsum).
  assert (HN : 0 <= Qfloor seconds < 360000).
  { split.
    - rewrite <- (Qfloor_Z 0). by apply Qfloor_resp_le.
    - rewrite Zlt_Qlt. eapply Qle_lt_trans; [apply Qfloor_le|done]. }
  unfold format_srt_timestamp. cbv zeta.
  set (hours := Py.int (PyNum.floordiv seconds 3600)) in *.
  set (minutes := Py.int (PyNum.floordiv (PyNum.modulo seconds 3600) 60)) in *.
  set (secs := Py.int (PyNum.modulo seconds 60)) in *.
  set (millis := Py.int (PyNum.modulo seconds 1 * 1000)%Q) in *.
  assert (Hhours : 0 <= hours < 100).
  { rewrite Hh. split; [apply Z.div_pos; lia|].
    apply Z.div_lt_upper_bound; lia. }
  clearbody hours minutes secs millis.
  assert (H2 : forall z, 0 <= z < 100 ->
            String.length (PyNum.format_0d 2 z) = 2%nat).
  { intros z Hz. apply (format_0d_length 2 100); [by vm_compute|done]. }
  assert (H3 : forall z, 0 <= z < 1000 ->
            String.length (PyNum.format_0d 3 z) = 3%nat).
  { intros z Hz. apply (format_0d_length 3 1000); [by vm_compute|done]. }
  rewrite !string_length_app.
  rewrite (H2 hours), (H2 minutes), (H2 secs), (H3 millis) by lia.
  reflexivity.
Qed.

Lemma format_srt_timestamp_length_witness :
  (0 <= 3661.5)%Q /\ (3661.5 < 360000)%Q /\
  String.length (format_srt_timestamp 3661.5) = 12%nat.
Proof.
  assert (H1 : (0 <= 3661.5)%Q) by (unfold Qle; simpl; lia).
  assert (H2 : (3661.5 < 360000)%Q) by (unfold Qlt; simpl; lia).
  split_and!; [exact H1 | exact H2 |].
  exact (format_srt_timestamp_length 3661.5 H1 H2).
Defined.
(** ** Captions in time order *)

Lemma all_pairs_adjacent {A} (R : A -> A -> Prop) (l : list A) :
  all_pairs R l -> adjacent R l.
Proof.
  induction l as [|x [|y l] IH]; intros H; [constructor..|].
  destruct H as [Hx Hl]. constructor; [by apply Forall_cons in Hx as [? _]|].
  by apply IH.
Qed.

Lemma timeline_sequential_all_pairs words :
  timeline_sequential words ->
  all_pairs (fun a b => (tw_end a <= tw_start b)%Q) words.
Proof.
  intros [Hwf Hadj]. induction Hadj as [|x|x y l Hxy Hadj IH]; simpl.
  - done.
  - by split.
  - apply Forall_cons in Hwf as [Hx Hwf].
    destruct (IH Hwf) as [Hy Hl]. split_and!; [|done..].
    constructor; [done|].
    apply Forall_cons in Hwf as [Hy' _].
    eapply Forall_impl; [done|]. intros z Hz. simpl in *. lra.
Qed.

(** The remapped words of the segments, from the offset: each one lies in
    [offset, offset + total span], and they follow one another. *)
Lemma remap_from_sequential words offset segments :
  words_sequential words ->
  segments_well_formed segments ->
  Forall (fun tw => (offset <= tw_start tw)%Q /\ (tw_start tw <= tw_end tw)%Q
                    /\ (tw_end tw <= offset + total_span segments)%Q)
         (remap_from words offset segments) /\
  all_pairs (fun a b => (tw_end a <= tw_start b)%Q)
            (remap_from words offset segments).
Proof.
  intros Hseq Hwf. revert offset.
  induction Hwf as [|segment rest Hs Hrest IH]; intros offset.
  - split; [constructor|done].
  - cbn [remap_from total_span foldr].
    change (foldr _ 0%Q rest) with (total_span rest).
    destruct (IH (offset + span segment)%Q) as [IHb IHp].
    pose proof (total_span_nonneg rest Hrest) as Hnn.
    pose proof (segment_words_bounds words segment) as Hb.
    assert (Hwfw : Forall (fun w => (w_start w <= w_end w)%Q)
                          (segment_words words segment)).
    { apply Forall_forall. intros w Hw.
      apply list_elem_of_In, List.filter_In in Hw as [Hw _].
      destruct Hseq as [Hall _]. rewrite Forall_forall in Hall.
      by apply Hall, list_elem_of_In. }
    assert (Hhead : Forall
              (fun tw => (offset <= tw_start tw)%Q
                         /\ (tw_start tw <= tw_end tw)%Q
                         /\ (tw_end tw <= offset + span segment)%Q)
              (map (remap_word segment offset) (segment_words words segment))).
    { apply Forall_map. apply Forall_forall. intros w Hw.
      rewrite Forall_forall in Hb, Hwfw.
      specialize (Hb w Hw) as [Hb1 Hb2]. specialize (Hwfw w Hw).
      cbn [remap_word tw_start tw_end]. unfold span.
      pose proof (Py_min_le_r (w_end w - cs_start segment)
                    (cs_end segment - cs_start segment)) as Hr.
      assert (Hm : (w_start w - cs_start segment
                    <= Py.min (w_end w - cs_start segment)
                              (cs_end segment - cs_start segment))%Q).
      { unfold Py.min. destruct (Py.Qlt_bool _ _); lra. }
      split_and!; lra. }
    split.
    + apply Forall_app. split.
      * eapply Forall_impl; [exact Hhead|]. intros tw (? & ? & ?).
        unfold span in *. split_and!; lra.
      * eapply Forall_impl; [exact IHb|]. intros tw (? & ? & ?).
        unfold span in *. split_and!; lra.
    + apply all_pairs_app. split_and!; [|done|].
      * apply (all_pairs_map (fun a b => (w_end a <= w_start b)%Q));
          [|apply all_pairs_filter, words_sequential_all_pairs, Hseq].
        intros x y Hxy. cbn beta in Hxy. cbn [remap_word tw_start tw_end].
        pose proof (Py_min_le_l (w_end x - cs_start segment)
                      (cs_end segment - cs_start segment)). lra.
      * intros x y Hx Hy. rewrite Forall_forall in Hhead, IHb.
        destruct (Hhead x Hx) as (_ & _ & ?).
        destruct (IHb y Hy) as (? & _ & _). lra.
Qed.

(** X11.  When the words are in time order and do not overlap and every
    keep segment starts no later than it ends, the words that
    [map_words_to_timeline] emits are in time order on the compressed clock
    and do not overlap, and none starts before 0, whatever the order of the
    keep segments and whether or not they overlap. *)
Theorem map_words_to_timeline_sequential
    (words : list TranscriptionWord) (keep_segments : list CutSegment) :
  words_sequential words ->
  segments_well_formed keep_segments ->
  let timeline_words := map_words_to_timeline words keep_segments in
  timeline_sequential timeline_words /\
  (forall tw, tw ∈ timeline_words -> (0 <= tw_start tw)%Q) /\
  (forall i j a b, (i < j)%nat ->
     timeline_words !! i = Some a -> timeline_words !! j = Some b ->
     (tw_end a <= tw_start b)%Q).
Proof.
  intros Hseq Hwf timeline_words. subst timeline_words.
  rewrite map_words_to_timeline_remap_from.
  destruct (remap_from_sequential words 0 keep_segments Hseq Hwf) as [Hb Hp].
  split_and!.
  - split; [|by apply all_pairs_adjacent].
    eapply Forall_impl; [exact Hb|]. by intros tw (_ & ? & _).
  - intros tw Htw. rewrite Forall_forall in Hb. by destruct (Hb tw Htw).
  - exact (proj1 (all_pairs_lookup _ _) Hp).
Qed.

Lemma map_words_to_timeline_sequential_witness :
  words_sequential example_words /\
  segments_well_formed example_keep_segments /\
  timeline_sequential (map_words_to_timeline example_words example_keep_segments).
Proof.
  assert (Hseq : words_sequential example_words).
  { split; repeat constructor; simpl; lra. }
  assert (Hwf : segments_well_formed example_keep_segments).
  { unfold segments_well_formed.
    set (l := example_keep_segments). vm_compute in l. subst l.
    repeat constructor; simpl; lra. }
  split_and!; [exact Hseq|exact Hwf|].
  exact (proj1 (map_words_to_timeline_sequential example_words
                  example_keep_segments Hseq Hwf)).
Defined.

Lemma lines_from_ordered groups :
  Forall (fun g => g <> []) groups ->
  Forall (fun w => (tw_start w <= tw_end w)%Q) (concat groups) ->
  all_pairs (fun a b => (tw_end a <= tw_start b)%Q) (concat groups) ->
  Forall (fun l => (l_start l <= l_end l)%Q) (lines_from groups) /\
  all_pairs (fun a b => (l_end a <= l_start b)%Q) (lines_from groups) /\
  forall l, l ∈ lines_from groups ->
    exists w, w ∈ concat groups /\ l_start l = tw_start w.
Proof.
  intros Hne. induction Hne as [|g groups Hg _ IH].
  - intros _ _. split_and!; [constructor|done|].
    intros p Hp. by apply elem_of_nil in Hp.
  - cbn [concat]. intros Hwf Hseq.
    apply Forall_app in Hwf as [Hwfg Hwfr].
    apply all_pairs_app in Hseq as (Hseqg & Hseqr & Hcross).
    destruct (IH Hwfr Hseqr) as (IH1 & IH2 & IH3).
    destruct g as [|first l]; [done|]. cbn [lines_from].
    assert (Hlast : List.last (first :: l) first ∈ first :: l).
    { pose proof (last_List_last l first first) as H.
      by apply last_Some_elem_of in H. }
    split_and!.
    + constructor; [|done]. cbn [l_start l_end].
      destruct Hseqg as [Hf _]. apply Forall_cons in Hwfg as [Hwf1 Hwfl].
      apply elem_of_cons in Hlast as [->|Hin]; [done|].
      rewrite Forall_forall in Hf, Hwfl.
      specialize (Hf _ Hin). specialize (Hwfl _ Hin). lra.
    + split; [|done]. apply Forall_forall. intros q Hq.
      destruct (IH3 q Hq) as (w & Hw & ->). cbn [l_end].
      by apply Hcross.
    + intros p [->|Hp]%elem_of_cons.
      * exists first. split; [|done]. apply elem_of_app. left. left.
      * destruct (IH3 p Hp) as (w & Hw & Hpw). exists w.
        split; [|done]. apply elem_of_app. by right.
Qed.

(** X12.  When the words are in time order and do not overlap, so are the
    caption lines of [group_words_into_lines]: every line starts no later
    than it ends, and ends no later than every later line starts; and every
    line starts where one of the words starts. *)
Theorem group_words_into_lines_sequential
    (words : list TimelineWord) (max_words max_chars : Z) :
  timeline_sequential words ->
  let lines := group_words_into_lines words max_words max_chars in
  lines_sequential lines /\
  (forall i j a b, (i < j)%nat ->
     lines !! i = Some a -> lines !! j = Some b ->
     (l_end a <= l_start b)%Q) /\
  (forall l, l ∈ lines -> exists w, w ∈ words /\ l_start l = tw_start w).
Proof.
  intros Hseq lines. subst lines.
  rewrite group_words_into_lines_closed_form.
  pose proof (line_groups_concat max_words max_chars [] words) as Hc.
  cbn [app] in Hc.
  destruct (lines_from_ordered (line_groups max_words max_chars [] words))
    as (H1 & H2 & H3).
  - apply line_groups_nonempty.
  - rewrite Hc. by destruct Hseq.
  - rewrite Hc. by apply timeline_sequential_all_pairs.
  - split_and!.
    + split; [done|by apply all_pairs_adjacent].
    + exact (proj1 (all_pairs_lookup _ _) H2).
    + intros l Hl. destruct (H3 l Hl) as (w & Hw & E). exists w.
      by rewrite Hc in Hw.
Qed.

Lemma group_words_into_lines_sequential_witness :
  let words := [ {| tw_word := "one"; tw_start := 0; tw_end := 0.5 |};
                 {| tw_word := "two"; tw_start := 0.5; tw_end := 1 |};
                 {| tw_word := "three"; tw_start := 1.5; tw_end := 2 |} ] in
  timeline_sequential words /\
  lines_sequential (group_words_into_lines words 2 45).
Proof.
  intros words.
  assert (Hseq : timeline_sequential words).
  { split; repeat constructor; simpl; lra. }
  split; [exact Hseq|].
  exact (proj1 (group_words_into_lines_sequential words 2 45 Hseq)).
Defined.

(** ** The SRT output *)

Lemma string_app_assoc (a b c : string) : (a +:+ b) +:+ c = a +:+ (b +:+ c).
Proof.
  induction a as [|x a IH]; [done|].
  change (String x ((a +:+ b) +:+ c) = String x (a +:+ (b +:+ c))).
  by rewrite IH.
Qed.

(** The entries that the loop of [generate_srt_content] appends. *)
Lemma generate_srt_content_fold (i : nat) (lines : list Line)
    (srt_lines : list string) :
  fold_left
    (fun srt_lines '(i, line) =>
       let start_ts := format_srt_timestamp (l_start line) in
       let end_ts := format_srt_timestamp (l_end line) in
       let srt_lines := srt_lines ++ [PyNum.str (Z.of_nat i)] in
       let srt_lines := srt_lines ++ [start_ts +:+ " --> " +:+ end_ts] in
       let srt_lines := srt_lines ++ [l_text line] in
       srt_lines ++ [""])
    (zip (seq i (length lines)) lines) srt_lines
  = srt_lines
    ++ concat (imap (fun k line =>
                       [PyNum.str (Z.of_nat (i + k));
                        format_srt_timestamp (l_start line) +:+ " --> "
                        +:+ format_srt_timestamp (l_end line);
                        l_text line; ""]) lines).
Proof.
  revert i srt_lines. induction lines as [|line rest IH]; intros i srt_lines.
  - simpl. by rewrite app_nil_r.
  - cbn [length seq zip zip_with fold_left imap concat].
    rewrite IH, Nat.add_0_r, <- !app_assoc. cbn [app]. do 6 f_equal.
    apply imap_ext. intros k line' _. cbn. by rewrite Nat.add_succ_r.
Qed.

Lemma join_entries_blocks (i : nat) (lines : list Line) :
  Py.join newline
    (concat (imap (fun k line =>
                     [PyNum.str (Z.of_nat (i + k));
                      format_srt_timestamp (l_start line) +:+ " --> "
                      +:+ format_srt_timestamp (l_end line);
                      l_text line; ""]) lines))
  = Py.join newline (imap (fun k line => srt_block (i + k) line) lines).
Proof.
  revert i. induction lines as [|line rest IH]; intros i; [done|].
  cbn [imap concat app]. rewrite Nat.add_0_r.
  assert (E : forall (f g : nat -> Line -> list string) l,
            (forall k x, f k x = g k x) -> imap f l = imap g l).
  { intros f g l H. apply imap_ext. intros; apply H. }
  rewrite (E _ (fun k line' =>
                  [PyNum.str (Z.of_nat (S i + k));
                   format_srt_timestamp (l_start line') +:+ " --> "
                   +:+ format_srt_timestamp (l_end line');
                   l_text line'; ""]) rest)
    by (intros; cbn; by rewrite Nat.add_succ_r).
  assert (E' : imap ((fun k line' => srt_block (i + k) line') ∘ S) rest
               = imap (fun k line' => srt_block (S i + k) line') rest).
  { apply imap_ext. intros; cbn. by rewrite Nat.add_succ_r. }
  rewrite E'. specialize (IH (S i)).
  unfold Py.join in *. destruct rest as [|line' rest'].
  - cbn. unfold srt_block. by rewrite !string_app_assoc.
  - cbn [imap concat app String.concat] in *.
    rewrite IH. unfold srt_block. rewrite !string_app_assoc. done.
Qed.

(** X13.  The SRT text of [generate_srt_content] is made of one block per
    caption line, in order and numbered from 1: the number, the time range
    [start --> end] and the text, each followed by a line feed; two blocks
    are separated by one more line feed, that is an empty line. *)
Theorem generate_srt_content_blocks (lines : list Line) :
  generate_srt_content lines
  = Py.join newline (imap (fun i line => srt_block (S i) line) lines).
Proof.
  rewrite <- (join_entries_blocks 1). unfold generate_srt_content.
  cbv zeta. f_equal. exact (generate_srt_content_fold 1 lines []).
Qed.

(** ** The number of caption lines and their texts *)

Lemma concat_length_bounds {A} (groups : list (list A)) (n : nat) :
  Forall (fun g => g <> []) groups ->
  (length groups <= length (concat groups))%nat /\
  (Forall (fun g => (length g <= n)%nat) groups ->
   (length (concat groups) <= n * length groups)%nat).
Proof.
  induction 1 as [|g groups Hg _ [IH1 IH2]]; [by rewrite Nat.mul_0_r|].
  cbn [concat]. rewrite length_app. cbn [length]. split.
  - destruct g; [done|]. simpl. lia.
  - intros [Hn Hall]%Forall_cons. specialize (IH2 Hall). lia.
Qed.

(** X14.  [group_words_into_lines] makes at most one line per word and, for
    a word list that is not empty, at least one line; when [max_words] is
    at least one, the lines are at least the number of words divided by
    [max_words]. *)
Theorem group_words_into_lines_count
    (words : list TimelineWord) (max_words max_chars : Z) :
  let lines := group_words_into_lines words max_words max_chars in
  (length lines <= length words)%nat /\
  (words <> [] -> lines <> []) /\
  (1 <= max_words ->
   Z.of_nat (length words) <= max_words * Z.of_nat (length lines)).
Proof.
  intros lines. subst lines. rewrite group_words_into_lines_closed_form.
  pose proof (line_groups_nonempty max_words max_chars words) as Hne.
  pose proof (line_groups_concat max_words max_chars [] words) as Hc.
  cbn [app] in Hc. rewrite (lines_from_length _ Hne).
  split_and!.
  - rewrite <- Hc at 2. by apply (concat_length_bounds _ 0).
  - intros Hw Hl. apply Hw.
    destruct (line_groups max_words max_chars [] words) as [|g gs] eqn:E.
    + by rewrite <- Hc.
    + apply Forall_cons in Hne as [Hg _]. by destruct g.
  - intros Hmw.
    pose proof (line_groups_max_words max_words max_chars words Hmw) as Hmax.
    destruct (concat_length_bounds
                (line_groups max_words max_chars [] words)
                (Z.to_nat max_words) Hne) as [_ Hub].
    rewrite Hc in Hub.
    assert (Hle : (length words
                   <= Z.to_nat max_words
                      * length (line_groups max_words max_chars [] words))%nat).
    { apply Hub. eapply Forall_impl; [exact Hmax|]. intros g Hg.
      cbn beta in Hg. lia. }
    nia.
Qed.

Lemma rstrip_idemp (s : string) : Py.rstrip (Py.rstrip s) = Py.rstrip s.
Proof.
  induction s as [|c s IH]; [done|]. cbn [Py.rstrip].
  destruct (Py.rstrip s) as [|d r] eqn:E.
  - destruct (Py.isspace c) eqn:Ec; [done|]. cbn [Py.rstrip]. by rewrite Ec.
  - cbn [Py.rstrip]. cbn [Py.rstrip] in IH. by rewrite IH.
Qed.

Lemma lstrip_head (s : string) :
  match Py.lstrip s with
  | String c _ => Py.isspace c = false
  | EmptyString => True
  end.
Proof.
  induction s as [|c s IH]; [done|]. cbn [Py.lstrip].
  by destruct (Py.isspace c) eqn:Ec.
Qed.

Lemma strip_head (s : string) :
  match Py.strip s with
  | String c _ => Py.isspace c = false
  | EmptyString => True
  end.
Proof.
  unfold Py.strip. pose proof (lstrip_head s) as H.
  destruct (Py.lstrip s) as [|c t]; [done|]. cbn [Py.rstrip].
  destruct (Py.rstrip t); [|done]. by rewrite H.
Qed.

Lemma strip_idemp (s : string) : Py.strip (Py.strip s) = Py.strip s.
Proof.
  pose proof (strip_head s) as H. unfold Py.strip at 1.
  destruct (Py.strip s) as [|c t] eqn:E; [done|].
  cbn [Py.lstrip]. rewrite H, <- E. apply rstrip_idemp.
Qed.

Lemma line_text_stripped (g : list TimelineWord) :
  Py.strip (line_text g) = line_text g.
Proof.
  destruct g as [|w g _] using rev_ind; [done|].
  rewrite line_text_snoc. apply strip_idemp.
Qed.

(** X15.  The text of every caption line of [group_words_into_lines] is
    stripped: stripping it again changes nothing, and it does not begin
    with a white-space character. *)
Theorem group_words_into_lines_text_stripped
    (words : list TimelineWord) (max_words max_chars : Z) :
  Forall
    (fun line =>
       Py.strip (l_text line) = l_text line /\
       match l_text line with
       | String c _ => Py.isspace c = false
       | EmptyString => True
       end)
    (group_words_into_lines words max_words max_chars).
Proof.
  apply Forall_forall. intros line Hline.
  rewrite group_words_into_lines_closed_form in Hline.
  pose proof (line_groups_nonempty max_words max_chars words) as Hne.
  apply list_elem_of_lookup_1 in Hline as [i Hi].
  assert (Hlen : (i < length (line_groups max_words max_chars [] words))%nat).
  { rewrite <- (lines_from_length _ Hne). by eapply lookup_lt_Some. }
  apply lookup_lt_is_Some_2 in Hlen as [g Hg].
  destruct (lines_from_lookup _ i g Hne Hg) as (first & lst & _ & _ & E).
  rewrite Hi in E. injection E as ->. cbn [l_text].
  split; [apply line_text_stripped|].
  rewrite <- line_text_stripped. apply strip_head.
Qed.
(** ** The name and the duration of a project *)

(** X16.  The name read back after it has been set is the value set,
    except for the empty string, which reads as ["Untitled"]; the name of a
    project is never empty. *)
Theorem project_name_set (self : CapCutProject) (value : string) :
  Project.project_name (set_project_name self value)
  = match value with EmptyString => "Untitled" | _ => value end /\
  Project.project_name self <> "".
Proof.
  split.
  - by destruct value.
  - unfold Project.project_name.
    destruct (m_draft_name (_meta self)) as [[|? ?]|];
      destruct (c_name (_content self)) as [[|? ?]|]; done.
Qed.

Lemma elem_of_concat {A} (x : A) (ls : list (list A)) :
  x ∈ concat ls <-> exists l, x ∈ l /\ l ∈ ls.
Proof.
  induction ls as [|l ls IH]; simpl.
  - split; [by intros ?%elem_of_nil|]. by intros (l & _ & ?%elem_of_nil).
  - rewrite elem_of_app, IH. split.
    + intros [H|(l' & H1 & H2)]; [exists l|exists l'];
        (split; [done|]); [by left|by right].
    + intros (l' & H1 & [->|H2]%elem_of_cons); [by left|right]. by exists l'.
Qed.

Lemma foldr_max_bound (l : list Z) (x : Z) :
  x ∈ l -> x <= foldr Z.max 0 l.
Proof.
  induction l as [|y l IH]; [by intros ?%elem_of_nil|].
  intros [->|H]%elem_of_cons; simpl; [lia|]. specialize (IH H). lia.
Qed.

Lemma foldr_max_attained (l : list Z) :
  foldr Z.max 0 l = 0 \/ foldr Z.max 0 l ∈ l.
Proof.
  induction l as [|y l IH]; [by left|]. simpl.
  destruct (Z.max_spec y (foldr Z.max 0 l)) as [[_ ->]|[_ ->]].
  - destruct IH as [IH|IH]; [by left|]. right. by right.
  - right. by left.
Qed.

(** X17.  [_update_duration] sets the duration of both documents to the
    same value: it is at least 0 and at least the end (target start plus
    target duration) of every segment of every track, and it is 0 or the
    end of one of these segments; nothing else changes, and a second call
    changes nothing. *)
Theorem update_duration_spec (self : CapCutProject) :
  let self' := _update_duration self in
  let d := Project.duration_us self' in
  c_duration (_content self') = Some d /\
  m_tm_duration (_meta self') = Some d /\
  0 <= d /\
  Forall (fun track =>
            Forall (fun seg => segment_end seg <= d) (segments_of track))
         (tracks_of (_content self)) /\
  (d = 0 \/
   exists track seg, track ∈ tracks_of (_content self) /\
     seg ∈ segments_of track /\ segment_end seg = d) /\
  self' = {| project_path := project_path self;
             _content := set_duration (_content self) d;
             _meta := set_tm_duration (_meta self) d |} /\
  _update_duration self' = self'.
Proof.
  intros self' d. subst d self'.
  unfold Project.duration_us, _update_duration.
  cbn [_content _meta project_path set_duration set_tm_duration c_duration
       m_tm_duration default c_tracks tracks_of].
  rewrite max_segment_end_project_end.
  set (tracks := default [] (c_tracks (_content self))).
  split_and!; try done.
  - apply foldr_max_nonneg.
  - apply Forall_forall. intros track Ht. apply Forall_forall. intros seg Hs.
    apply foldr_max_bound, list_elem_of_fmap. exists seg. split; [done|].
    apply elem_of_concat. exists (segments_of track). split; [done|].
    apply list_elem_of_fmap. by exists track.
  - destruct (foldr_max_attained
                (map segment_end (concat (map segments_of tracks))))
      as [H|H]; [by left|right].
    apply list_elem_of_fmap in H as (seg & E & Hseg).
    apply elem_of_concat in Hseg as (segs & Hs & Hsegs).
    apply list_elem_of_fmap in Hsegs as (track & -> & Ht).
    by exists track, seg.
  - rewrite max_segment_end_project_end. by subst tracks.
Qed.

(** ** Replacing the video segments *)

Lemma replace_video_segments_None new_segments tracks :
  (forall track, track ∈ tracks -> ~ is_video track) ->
  replace_video_segments new_segments tracks = tracks.
Proof.
  induction tracks as [|track rest IH]; intros H; [done|].
  cbn [replace_video_segments]. case_bool_decide as E.
  - exfalso. apply (H track); [by left|done].
  - rewrite IH; [done|]. intros t Ht. apply H. by right.
Qed.

Lemma replace_video_segments_Some new_segments tracks i track :
  tracks !! i = Some track -> is_video track ->
  (forall j t, (j < i)%nat -> tracks !! j = Some t -> ~ is_video t) ->
  replace_video_segments new_segments tracks
  = <[i := with_segments track new_segments]> tracks.
Proof.
  revert i. induction tracks as [|t rest IH]; intros i Hi Hv Hfirst; [done|].
  cbn [replace_video_segments]. destruct i as [|i].
  - injection Hi as ->. by rewrite bool_decide_eq_true_2.
  - rewrite bool_decide_eq_false_2 by (apply (Hfirst 0%nat); [lia|done]).
    cbn [insert list_insert]. f_equal. apply IH; [done..|].
    intros j t' Hj Ht'. apply (Hfirst (S j)); [lia|done].
Qed.

Lemma update_video_segments_first self new_segments i track :
  tracks_of (_content self) !! i = Some track -> is_video track ->
  (forall j t, (j < i)%nat -> tracks_of (_content self) !! j = Some t ->
               ~ is_video t) ->
  update_video_segments self new_segments
  = with_cut_plan self i track new_segments.
Proof.
  intros Hi Hv Hfirst. unfold update_video_segments.
  destruct self as [path c m]. cbn [_content _meta project_path] in *.
  destruct c as [? ? ? ? [tracks|] ? ?]; [|done].
  cbn [tracks_of c_tracks default] in Hi, Hfirst.
  cbn [c_tracks fmap option_fmap option_map c_id c_name c_duration
       c_update_time c_materials c_other].
  rewrite (replace_video_segments_Some _ tracks i track) by done.
  unfold _update_duration, with_cut_plan.
  cbn [_content _meta project_path set_duration tracks_of c_tracks default
       c_id c_name c_duration c_update_time c_materials c_other].
  by rewrite max_segment_end_project_end.
Qed.


(** X18.  [update_video_segments] replaces the segment list of the first
    track of type ["video"] by the given list and recomputes the duration
    of both documents; the other tracks, their order and the rest of the
    documents stay as they were.  Without a video track only the duration
    is recomputed. *)
Theorem update_video_segments_spec
    (self : CapCutProject) (new_segments : list Segment) :
  let tracks := tracks_of (_content self) in
  let result := update_video_segments self new_segments in
  ((forall track, track ∈ tracks -> ~ is_video track) ->
   result = _update_duration self) /\
  (forall i track,
     tracks !! i = Some track -> is_video track ->
     (forall j t, (j < i)%nat -> tracks !! j = Some t -> ~ is_video t) ->
     result = with_cut_plan self i track new_segments /\
     Project.duration_us result
     = project_end (<[i := with_segments track new_segments]> tracks)).
Proof.
  intros tracks result. subst tracks result. split.
  - intros Hnone. unfold update_video_segments.
    destruct self as [path c m]. cbn [_content _meta project_path] in *.
    destruct c as [? ? ? ? [tracks|] ? ?]; [|done].
    cbn [c_tracks fmap option_fmap option_map].
    cbn [tracks_of c_tracks default] in Hnone.
    by rewrite replace_video_segments_None.
  - intros i track Hi Hv Hfirst.
    by rewrite (update_video_segments_first self new_segments i track).
Qed.



(** ** Saving and loading *)

(** X20.  After [save] in an existing project directory, loading the
    directory gives the project as saved: both documents carry the time of
    the save and are the ones on disk; the other entries of the directory
    and the other directories are as they were, and saving again at the
    same time changes nothing. *)
Theorem save_load (current_time : Z) (self : CapCutProject) (fs : FS)
    (d : ProjectDir) :
  fs !! project_path self = Some d ->
  let saved := (save current_time self fs).1 in
  let fs' := (save current_time self fs).2 in
  CapCutProject_init fs' (project_path self) = Some saved /\
  c_update_time (_content saved) = Some current_time /\
  m_tm_draft_modified (_meta saved) = Some current_time /\
  fs' !! project_path self
  = Some {| draft_info := Some (_content saved);
            draft_meta_info := Some (_meta saved);
            dir_other := dir_other d |} /\
  (forall p, p <> project_path self -> fs' !! p = fs !! p) /\
  save current_time saved fs' = (saved, fs').
Proof.
  intros Hd saved fs'. subst saved fs'. unfold save.
  cbn [fst snd _content _meta project_path c_update_time
       m_tm_draft_modified].
  assert (Hlook :
    alter (fun d0 =>
             {| draft_info :=
                  Some {| c_id := c_id (_content self);
                          c_name := c_name (_content self);
                          c_duration := c_duration (_content self);
                          c_update_time := Some current_time;
                          c_tracks := c_tracks (_content self);
                          c_materials := c_materials (_content self);
                          c_other := c_other (_content self) |};
                draft_meta_info :=
                  Some {| m_draft_id := m_draft_id (_meta self);
                          m_draft_name := m_draft_name (_meta self);
                          m_draft_root_path := m_draft_root_path (_meta self);
                          m_tm_duration := m_tm_duration (_meta self);
                          m_tm_draft_modified := Some current_time;
                          m_other := m_other (_meta self) |};
                dir_other := dir_other d0 |})
          (project_path self) fs !! project_path self
    = Some {| draft_info :=
                Some {| c_id := c_id (_content self);
                        c_name := c_name (_content self);
                        c_duration := c_duration (_content self);
                        c_update_time := Some current_time;
                        c_tracks := c_tracks (_content self);
                        c_materials := c_materials (_content self);
                        c_other := c_other (_content self) |};
              draft_meta_info :=
                Some {| m_draft_id := m_draft_id (_meta self);
                        m_draft_name := m_draft_name (_meta self);
                        m_draft_root_path := m_draft_root_path (_meta self);
                        m_tm_duration := m_tm_duration (_meta self);
                        m_tm_draft_modified := Some current_time;
                        m_other := m_other (_meta self) |};
              dir_other := dir_other d |}).
  { by rewrite lookup_alter_eq, Hd. }
  split_and!.
  - unfold CapCutProject_init. by rewrite Hlook.
  - done.
  - done.
  - exact Hlook.
  - intros p Hp. by rewrite lookup_alter_ne.
  - cbn [c_id c_name c_duration c_update_time c_tracks c_materials c_other
         m_draft_id m_draft_name m_draft_root_path m_tm_duration
         m_tm_draft_modified m_other].
    f_equal. apply map_eq. intros p.
    destruct (decide (p = project_path self)) as [->|Hp].
    + rewrite lookup_alter_eq, Hlook. done.
    + by rewrite !lookup_alter_ne.
Qed.

Lemma save_load_witness :
  let saved := (save 1700000000 demo_source demo_fs).1 in
  let fs' := (save 1700000000 demo_source demo_fs).2 in
  demo_fs !! project_path demo_source
  = Some {| draft_info := Some (_content demo_source);
            draft_meta_info := None;
            dir_other := [("a.mp4", "bytes")] |} /\
  CapCutProject_init fs' (project_path demo_source) = Some saved.
Proof.
  intros saved fs'.
  assert (H : demo_fs !! project_path demo_source
              = Some {| draft_info := Some (_content demo_source);
                        draft_meta_info := None;
                        dir_other := [("a.mp4", "bytes")] |})
    by (vm_compute; reflexivity).
  split; [exact H|].
  exact (proj1 (save_load 1700000000 demo_source demo_fs _ H)).
Defined.

(** ** Reading the segments back after a cut plan *)






(** ** Adding a text track *)

(** The position of the [k]-th caption of a run of the loop that starts
    with the toggle [position_toggle]. *)
Lemma add_text_track_fold json_dumps uuid4 style subtitles text_materials
    new_segments position_toggle n :
  let position k :=
    if Qeq_bool (style_position_y style) 0.8 then
      if xorb position_toggle (Nat.odd k) then 0.2%Q else 0.8%Q
    else style_position_y style in
  exists position_toggle',
    fold_left (add_text_track_body json_dumps uuid4 style) subtitles
              (text_materials, new_segments, position_toggle, n)
    = (text_materials
         ++ imap (fun k sub =>
                    _build_text_material json_dumps (uuid4 (n + 2 * k)%nat)
                                         (l_text sub) style)
                 subtitles,
       new_segments
         ++ imap (fun k sub =>
                    _build_text_segment (uuid4 (n + 2 * k + 1)%nat)
                      (uuid4 (n + 2 * k)%nat) (to_us (l_start sub))
                      (to_us (l_end sub) - to_us (l_start sub))
                      (position k))
                 subtitles,
       position_toggle',
       (n + 2 * length subtitles)%nat).
Proof.
  revert text_materials new_segments position_toggle n.
  induction subtitles as [|sub rest IH];
    intros text_materials new_segments position_toggle n position.
  - exists position_toggle. cbn. rewrite !app_nil_r. do 2 f_equal. lia.
  - cbn [fold_left]. unfold add_text_track_body at 2.
    subst position.
    destruct (Qeq_bool (style_position_y style) 0.8) eqn:Epos.
    + destruct (IH (text_materials
                      ++ [_build_text_material json_dumps (uuid4 n)
                            (l_text sub) style])
                   (new_segments
                      ++ [_build_text_segment (uuid4 (S n)) (uuid4 n)
                            (to_us (l_start sub))
                            (to_us (l_end sub) - to_us (l_start sub))
                            (if position_toggle then 0.2%Q else 0.8%Q)])
                   (negb position_toggle) (S (S n)))
        as [toggle' ->].
      exists toggle'. rewrite ?Epos. cbn [imap length].
      rewrite <- !app_assoc. cbn [app].
      replace (n + 2 * 0)%nat with n by lia.
      replace (n + 1)%nat with (S n) by lia.
      rewrite xorb_false_r.
      f_equal; [|lia]. f_equal. f_equal.
      * do 2 f_equal. apply imap_ext. intros k sub' _. unfold compose.
        by replace (S (S n) + 2 * k)%nat with (n + 2 * S k)%nat by lia.
      * do 2 f_equal. apply imap_ext. intros k sub' _. unfold compose.
        replace (S (S n) + 2 * k)%nat with (n + 2 * S k)%nat by lia.
        rewrite Nat.odd_succ, <- Nat.negb_odd.
        by destruct position_toggle, (Nat.odd k).
    + destruct (IH (text_materials
                      ++ [_build_text_material json_dumps (uuid4 n)
                            (l_text sub) style])
                   (new_segments
                      ++ [_build_text_segment (uuid4 (S n)) (uuid4 n)
                            (to_us (l_start sub))
                            (to_us (l_end sub) - to_us (l_start sub))
                            (style_position_y style)])
                   position_toggle (S (S n)))
        as [toggle' ->].
      exists toggle'. rewrite ?Epos. cbn [imap length].
      rewrite <- !app_assoc. cbn [app].
      replace (n + 2 * 0)%nat with n by lia.
      replace (n + 1)%nat with (S n) by lia.
      f_equal; [|lia]. f_equal. f_equal.
      * do 2 f_equal. apply imap_ext. intros k sub' _. unfold compose.
        by replace (S (S n) + 2 * k)%nat with (n + 2 * S k)%nat by lia.
      * do 2 f_equal. apply imap_ext. intros k sub' _. unfold compose.
        by replace (S (S n) + 2 * k)%nat with (n + 2 * S k)%nat by lia.
Qed.

Lemma add_text_track_loop json_dumps uuid4 style subtitles text_materials n :
  exists position_toggle',
    fold_left (add_text_track_body json_dumps uuid4 style) subtitles
              (text_materials, [], false, n)
    = (text_materials
         ++ imap (new_text_material json_dumps uuid4 n style) subtitles,
       imap (new_text_segment uuid4 n style) subtitles,
       position_toggle',
       (n + 2 * length subtitles)%nat).
Proof.
  destruct (add_text_track_fold json_dumps uuid4 style subtitles
              text_materials [] false n) as [toggle' E].
  exists toggle'. rewrite E. cbn [app]. do 3 f_equal.
  apply imap_ext. intros k sub _. unfold new_text_segment, caption_position.
  do 2 f_equal. rewrite xorb_false_l, <- Nat.negb_even.
  by destruct (Nat.even k).
Qed.

Lemma find_text_track_from_None k tracks :
  (forall track, track ∈ tracks -> ~ is_text track) ->
  find_text_track_from k tracks = None.
Proof.
  revert k. induction tracks as [|t rest IH]; intros k H; [done|].
  cbn [find_text_track_from].
  rewrite bool_decide_eq_false_2 by (apply H; by left).
  apply IH. intros t' Ht'. apply H. by right.
Qed.

Lemma find_text_track_from_Some k tracks i track :
  tracks !! i = Some track -> is_text track ->
  (forall j t, (j < i)%nat -> tracks !! j = Some t -> ~ is_text t) ->
  find_text_track_from k tracks = Some ((k + i)%nat, track).
Proof.
  revert k i. induction tracks as [|t rest IH]; intros k i Hi Ht Hfirst;
    [done|].
  cbn [find_text_track_from]. destruct i as [|i].
  - injection Hi as ->. rewrite bool_decide_eq_true_2 by done.
    by rewrite Nat.add_0_r.
  - rewrite bool_decide_eq_false_2 by (apply (Hfirst 0%nat); [lia|done]).
    rewrite (IH (S k) i) ; [do 2 f_equal; lia|done..|].
    intros j t' Hj Ht'. apply (Hfirst (S j)); [lia|done].
Qed.

(** Either no track is a text track, or there is a first one. *)
Lemma first_text_track (tracks : list Track) :
  (forall track, track ∈ tracks -> ~ is_text track) \/
  exists i track, tracks !! i = Some track /\ is_text track /\
    forall j t, (j < i)%nat -> tracks !! j = Some t -> ~ is_text t.
Proof.
  induction tracks as [|t rest IH].
  - left. by intros ? ?%elem_of_nil.
  - destruct (decide (is_text t)) as [Ht|Ht].
    + right. exists 0%nat, t. split_and!; [done..|]. intros; lia.
    + destruct IH as [IH|(i & track & Hi & Htr & Hfirst)].
      * left. intros t' [->|H']%elem_of_cons; [done|by apply IH].
      * right. exists (S i), track. split_and!; [done..|].
        intros [|j] t' Hj Ht'; [by injection Ht' as <-|].
        apply (Hfirst j); [lia|done].
Qed.

Lemma add_text_track_applied json_dumps uuid4 n self subtitles style :
  subtitles <> [] ->
  texts_well_formed (_content self) ->
  let style' := default TextStyle_default style in
  let tracks := tracks_of (_content self) in
  let text_materials :=
    text_materials_of (_content self)
      ++ imap (new_text_material json_dumps uuid4 n style') subtitles in
  let new_segments := imap (new_text_segment uuid4 n style') subtitles in
  (forall i track,
     tracks !! i = Some track -> is_text track ->
     (forall j t, (j < i)%nat -> tracks !! j = Some t -> ~ is_text t) ->
     add_text_track json_dumps uuid4 n self subtitles style
     = match track_segments track with
       | Some segments =>
           Some (with_text_track self text_materials
                   (<[i := with_segments track (segments ++ new_segments)]>
                      tracks),
                 (n + 2 * length subtitles)%nat)
       | None => None
       end) /\
  ((forall track, track ∈ tracks -> ~ is_text track) ->
   add_text_track json_dumps uuid4 n self subtitles style
   = Some (with_text_track self text_materials
             (tracks
                ++ [new_text_track (uuid4 (n + 2 * length subtitles)%nat)
                                   new_segments]),
           S (n + 2 * length subtitles))).
Proof.
  intros Hsub Hwf style' tracks text_materials new_segments.
  subst text_materials new_segments.
  unfold texts_well_formed in Hwf. unfold text_materials_of.
  assert (Htexts :
    match dict_get "texts"
            (mats_other (default empty_materials
                           (c_materials (_content self)))) with
    | None => Some []
    | Some (JList text_materials) => Some text_materials
    | Some _ => None
    end
    = Some match dict_get "texts"
                   (mats_other (default empty_materials
                                  (c_materials (_content self)))) with
           | Some (JList text_materials) => text_materials
           | _ => []
           end).
  { destruct (dict_get _ _) as [[]|]; done. }
  set (old := match dict_get _ _ with
              | Some (JList text_materials) => text_materials
              | _ => []
              end) in *.
  destruct (add_text_track_loop json_dumps uuid4 style' subtitles old n)
    as [toggle' Eloop].
  split.
  - intros i track Hi Ht Hfirst.
    unfold add_text_track. destruct subtitles as [|sub rest] eqn:E; [done|].
    rewrite <- E in *. rewrite Htexts. fold style'. rewrite Eloop.
    fold tracks.
    rewrite (find_text_track_from_Some 0 tracks i track Hi Ht Hfirst).
    cbn [Nat.add]. destruct (track_segments track) as [segments|]; [|done].
    unfold _update_duration, with_text_track, with_segments.
    cbn [_content _meta project_path c_tracks tracks_of default
         set_duration c_id c_name c_duration c_update_time c_materials
         c_other].
    by rewrite max_segment_end_project_end.
  - intros Hnone.
    unfold add_text_track. destruct subtitles as [|sub rest] eqn:E; [done|].
    rewrite <- E in *. rewrite Htexts. fold style'. rewrite Eloop.
    fold tracks. rewrite (find_text_track_from_None 0 tracks Hnone).
    unfold _update_duration, with_text_track, new_text_track.
    cbn [_content _meta project_path c_tracks tracks_of default
         set_duration c_id c_name c_duration c_update_time c_materials
         c_other app].
    by rewrite max_segment_end_project_end.
Qed.



(** X23.  [add_text_track] without subtitles changes nothing and draws no
    identifier.  With subtitles it raises exactly when ["texts"] holds
    something else than a list, or the first track of type ["text"] has no
    segment list. *)
Theorem add_text_track_raises
    (json_dumps : json -> string) (uuid4 : UuidSource) (n : nat)
    (self : CapCutProject) (subtitles : list Line)
    (style : option TextStyle) :
  let tracks := tracks_of (_content self) in
  add_text_track json_dumps uuid4 n self [] style = Some (self, n) /\
  (add_text_track json_dumps uuid4 n self subtitles style = None <->
   subtitles <> [] /\
   (~ texts_well_formed (_content self) \/
    exists i track,
      tracks !! i = Some track /\ is_text track /\
      (forall j t, (j < i)%nat -> tracks !! j = Some t -> ~ is_text t) /\
      track_segments track = None)).
Proof.
  intros tracks. split; [done|].
  destruct (decide (subtitles = [])) as [->|Hsub].
  { split; [done|]. by intros [? _]. }
  assert (Hdec : texts_well_formed (_content self)
                 \/ ~ texts_well_formed (_content self)).
  { unfold texts_well_formed. destruct (dict_get _ _) as [[]|]; tauto. }
  destruct Hdec as [Hwf|Hwf].
  - destruct (add_text_track_applied json_dumps uuid4 n self subtitles style
                Hsub Hwf) as [HA HB].
    destruct (first_text_track tracks) as [Hnone|(i & track & Hi & Ht & Hf)].
    + rewrite (HB Hnone). split; [done|].
      intros (_ & [?|(i & track & Hi & Ht & _)]); [done|].
      exfalso. apply (Hnone track); [by eapply list_elem_of_lookup_2|done].
    + rewrite (HA i track Hi Ht Hf). split.
      * intros H. split; [done|]. right. exists i, track.
        split_and!; [done..|]. by destruct (track_segments track).
      * intros (_ & [?|(i' & track' & Hi' & Ht' & Hf' & Hs')]); [done|].
        assert (i' = i) as ->.
        { destruct (Nat.lt_trichotomy i' i) as [Hlt|[->|Hlt]]; [|done|].
          - exfalso. by apply (Hf i' track' Hlt Hi').
          - exfalso. by apply (Hf' i track Hlt Hi). }
        assert (track' = track) as -> by congruence.
        by rewrite Hs'.
  - split.
    + intros _. split; [done|]. by left.
    + intros _. unfold add_text_track, texts_well_formed in *.
      destruct subtitles; [done|].
      destruct (dict_get _ _) as [[]|]; done || by exfalso; apply Hwf.
Qed.









(** ** Reading the captions back *)







